(** * Order-book depth and statistics of [altcoin_visualizer.py]

    A shallow embedding of the computational parts of
    [AltcoinRatioVisualizer]: the running cumulative sums and the summary
    figures of [create_orderbook_depth_chart] (repeated verbatim in
    [create_combined_chart]), and the guards of [add_footprint_markers] and
    [add_order_flow_profile].

    Numbers.  Prices, quantities and times are Python numbers.  They are
    modelled as exact rationals ([Qc], canonical fractions with Leibniz
    equality); Python integers are the rationals of denominator one.
    Rounding of binary floating point is outside this model, except where
    a statement is about floats: there the loop is given over binary64
    numbers.  Times are rationals counting minutes. *)

From Stdlib Require Import QArith Qcanon PrimFloat.
From stdpp Require Import base option list numbers strings gmap.

Local Open Scope Qc_scope.

(** Decides a closed proposition by evaluating its decision procedure. *)
Ltac by_eval := apply (bool_decide_unpack _); vm_compute; exact I.

(** ** Exceptions and results *)

(** The exceptions the modelled statements can raise.  [InvalidInput] is the
    error kind the specification names; no statement of the source raises
    it. *)
Inductive exn : Type :=
  | ZeroDivisionError
  | IndexError
  | KeyError (key : string)
  | TypeError
  | InvalidInput.

Inductive result (A : Type) : Type :=
  | Ok (a : A)
  | Raise (e : exn).
Arguments Ok {A} a.
Arguments Raise {A} e.

(** Sequencing, with stdpp's [x ← r; k] notation: the first exception
    raised ends the computation. *)
#[global] Instance result_ret : MRet result := λ A a, Ok a.
#[global] Instance result_bind : MBind result := λ A B k r,
  match r with
  | Ok a => k a
  | Raise e => Raise e
  end.

#[global] Instance exn_eq_dec : EqDecision exn.
Proof. solve_decision. Defined.

#[global] Instance result_eq_dec {A} `{EqDecision A} : EqDecision (result A).
Proof. solve_decision. Defined.

(** ** Python primitives *)

(** [q n] is the Python integer [n]. *)
Definition q (n : Z) : Qc := Qc_of_Z n.

(** [a / b]: true division, raising on a zero divisor. *)
Definition py_truediv (a b : Qc) : result Qc :=
  if decide (b = 0) then Raise ZeroDivisionError else Ok (a / b).

(** [sum(xs)]: additions from the left, starting at [0]. *)
Definition py_sum (xs : list Qc) : Qc := foldl Qcplus 0 xs.

(** Truth value of a list: empty lists are falsy. *)
Definition list_truthy {A} (l : list A) : bool :=
  match l with
  | [] => false
  | _ :: _ => true
  end.

(** ** Order-book levels *)

(** A level is a [[price, qty]] pair. *)
Abbreviation level := (Qc * Qc)%type.

(** [[price for price, _ in levels]] *)
Definition prices (levels : list level) : list Qc := levels.*1.

(** [[qty for _, qty in levels]] *)
Definition volumes (levels : list level) : list Qc := levels.*2.

(** [levels[0][0]] *)
Definition best_price (levels : list level) : result Qc :=
  match levels with
  | [] => Raise IndexError
  | (price, _) :: _ => Ok price
  end.

(** The two sides of a small book, [[[100, 2], [99, 3]]] and
    [[[101, 1], [102, 4]]], used as concrete input below. *)
Definition example_bids : list level := [(q 100, q 2); (q 99, q 3)].
Definition example_asks : list level := [(q 101, q 1); (q 102, q 4)].

(** ** The cumulative-volume loop

<<
    bid_cumulative = []
    cumsum = 0
    for vol in bid_volumes:
        cumsum += vol
        bid_cumulative.append(cumsum)
>>
    [cumulative_loop] is the loop with its two variables as accumulators:
    one iteration adds [vol] to [cumsum] and appends the new [cumsum]. *)
Fixpoint cumulative_loop (cumsum : Qc) (acc : list Qc) (vols : list Qc)
  : Qc * list Qc :=
  match vols with
  | [] => (cumsum, acc)
  | vol :: rest =>
      let cumsum' := cumsum + vol in
      cumulative_loop cumsum' (acc ++ [cumsum']) rest
  end.

Definition cumulative (vols : list Qc) : list Qc :=
  (cumulative_loop 0 [] vols).2.

(** The running sums of [vols] from [start], front to back: what the loop
    is shown to append. *)
Fixpoint prefix_sums (start : Qc) (vols : list Qc) : list Qc :=
  match vols with
  | [] => []
  | vol :: rest => (start + vol) :: prefix_sums (start + vol) rest
  end.

(** The depth curve handed to the chart: the [x] list of prices and the [y]
    list of cumulative volumes of one side, read as pairs. *)
Definition depth_curve (levels : list level) : list (Qc * Qc) :=
  zip (prices levels) (cumulative (volumes levels)).

(** The depth-curve computation as an operation that may fail.  The source
    has no check on the quantities, so every input yields a curve. *)
Definition computeDepthCurve (levels : list level) : result (list (Qc * Qc)) :=
  Ok (depth_curve levels).

(** The final cumulative total of a curve: the last [y] value. *)
Definition curve_total (curve : list (Qc * Qc)) : option Qc :=
  snd <$> last curve.

(** A cumulative sequence is non-decreasing. *)
Definition non_decreasing (ys : list Qc) : Prop :=
  ∀ i j a b, (i ≤ j)%nat → ys !! i = Some a → ys !! j = Some b → a ≤ b.

(** The sum of the quantities of a sequence of levels, as the
    specification speaks of it.  It is defined on the input levels and
    uses none of the definitions that model statements of the program
    ([volumes], [py_sum], the loop). *)
Fixpoint total_quantity (levels : list level) : Qc :=
  match levels with
  | [] => 0
  | (_, quantity) :: rest => quantity + total_quantity rest
  end.

(** ** The same loop on binary64 quantities

    Quantities that are Python floats are added with rounding.  The loop
    is given once more over binary64 numbers, with the addition of the
    processor; [cumsum = 0] starts it from zero. *)
Fixpoint float_cumulative_loop (cumsum : float) (acc : list float)
    (vols : list float) : float * list float :=
  match vols with
  | [] => (cumsum, acc)
  | vol :: rest =>
      let cumsum' := PrimFloat.add cumsum vol in
      float_cumulative_loop cumsum' (acc ++ [cumsum']) rest
  end.

Definition float_cumulative (vols : list float) : list float :=
  (float_cumulative_loop PrimFloat.zero [] vols).2.

Definition float_depth_curve (levels : list (float * float))
  : list (float * float) :=
  zip (levels.*1) (float_cumulative (levels.*2)).

Definition float_curve_total (curve : list (float * float)) : option float :=
  snd <$> last curve.

(** Three bid levels with the quantities [0.1], [0.2] and [0.3], the
    binary64 numbers closest to these decimals. *)
Definition float_bids : list (float * float) :=
  [(100, 0x1.999999999999ap-4); (99, 0x1.999999999999ap-3);
   (98, 0x1.3333333333333p-2)]%float.


(** ** Snapshots and their statistics *)

(** The order-book snapshot: [{symbol: ..., bids: [[price, qty], ...],
    asks: [[price, qty], ...]}]. *)
Record snapshot : Type := Snapshot {
  symbol : string;
  bids : list level;
  asks : list level;
}.

(** The figures computed for the chart title, named as the source's local
    variables; [imbalance] is the bid/ask volume ratio. *)
Record statistics : Type := Statistics {
  bid_volume : Qc;
  ask_volume : Qc;
  imbalance : Qc;
  spread : Qc;
}.

#[global] Instance statistics_eq_dec : EqDecision statistics.
Proof. solve_decision. Defined.

(**
<<
    bid_volume = sum(qty for _, qty in bids)
    ask_volume = sum(qty for _, qty in asks)
    imbalance = bid_volume / ask_volume if ask_volume > 0 else 0
    spread = asks[0][0] - bids[0][0] if asks and bids else 0
>> *)
Definition book_statistics (bids asks : list level) : result statistics :=
  let bid_volume := py_sum (volumes bids) in
  let ask_volume := py_sum (volumes asks) in
  imbalance ←
    (if decide (0 < ask_volume) then py_truediv bid_volume ask_volume
     else Ok 0);
  spread ←
    (if list_truthy asks && list_truthy bids then
       best_ask ← best_price asks;
       best_bid ← best_price bids;
       Ok (best_ask - best_bid)
     else Ok 0);
  Ok (Statistics bid_volume ask_volume imbalance spread).

(** The statistics of a snapshot. *)
Definition computeStatistics (snap : snapshot) : result statistics :=
  book_statistics (bids snap) (asks snap).

(** A book with bids and no asks. *)
Definition bids_only_book : snapshot := Snapshot "BTCUSDT" example_bids [].

(** Modelled from the spec: the spread percentage.  [add_orderbook_overlay]
    only reads a ready-made [spread_pct] from its [orderbook_stats]
    argument; the code that computes it is not in this file.  The
    specification defines it as [spread / best_bid × 100], with the spread
    figures reported as [0] when a side is missing. *)
Definition spreadPct (snap : snapshot) : result Qc :=
  stats ← computeStatistics snap;
  if list_truthy (asks snap) && list_truthy (bids snap) then
    best_bid ← best_price (bids snap);
    ratio ← py_truediv (spread stats) best_bid;
    Ok (ratio * q 100)
  else Ok 0.

(** ** Figures

    A Plotly figure as the lists its methods append to.  Styling arguments
    that carry no data (hover templates, line widths, marker borders) are
    left out. *)
Record scatter : Type := Scatter {
  sc_x : list Qc;
  sc_y : list Qc;
  sc_name : string;
  sc_mode : string;
  sc_fill : string;
  sc_color : string;
}.

Inductive shape : Type :=
  | Rect (x0 x1 y0 y1 : Qc) (fillcolor : string)
  | VLine (x : Qc) (line_color : string).

(** The text of the depth chart's title and of the combined chart's
    statistics box, before number formatting: the symbol, the spread and
    the bid/ask ratio. *)
Record chart_title : Type := ChartTitle {
  t_symbol : string;
  t_spread : Qc;
  t_ratio : Qc;
}.

Inductive label : Type :=
  | Text (s : string)
  | StatsText (t : chart_title).

Record annotation : Type := Annotation {
  an_x : Qc;
  an_y : option Qc;
  an_label : label;
}.

Record figure : Type := Figure {
  traces : list scatter;
  shapes : list shape;
  annotations : list annotation;
  title : option chart_title;
}.

#[global] Instance scatter_eq_dec : EqDecision scatter.
Proof. solve_decision. Defined.
#[global] Instance shape_eq_dec : EqDecision shape.
Proof. solve_decision. Defined.
#[global] Instance chart_title_eq_dec : EqDecision chart_title.
Proof. solve_decision. Defined.
#[global] Instance label_eq_dec : EqDecision label.
Proof. solve_decision. Defined.
#[global] Instance annotation_eq_dec : EqDecision annotation.
Proof. solve_decision. Defined.
#[global] Instance figure_eq_dec : EqDecision figure.
Proof. solve_decision. Defined.

(** [go.Figure()] *)
Definition go_Figure : figure := Figure [] [] [] None.

Definition add_trace (fig : figure) (tr : scatter) : figure :=
  Figure (traces fig ++ [tr]) (shapes fig) (annotations fig) (title fig).

Definition add_shape (fig : figure) (sh : shape) : figure :=
  Figure (traces fig) (shapes fig ++ [sh]) (annotations fig) (title fig).

Definition add_annotation (fig : figure) (an : annotation) : figure :=
  Figure (traces fig) (shapes fig) (annotations fig ++ [an]) (title fig).

(** [fig.add_vline(x=..., line_color=..., annotation_text=...)]: a vertical
    line and its label at the top. *)
Definition add_vline (fig : figure) (x : Qc) (color text : string) : figure :=
  add_annotation (add_shape fig (VLine x color)) (Annotation x None (Text text)).

Definition update_layout (fig : figure) (t : chart_title) : figure :=
  Figure (traces fig) (shapes fig) (annotations fig) (Some t).

(** ** Effects of a chart function

    What a call does besides returning: lines printed, figures constructed
    and HTML files written, in order.  An exception ends the call and keeps
    the events before it. *)
Inductive event : Type :=
  | Print (msg : string)
  | NewFigure
  | WriteHtml (file : string) (fig : figure).

Definition eff (A : Type) : Type := list event * result A.

#[global] Instance eff_ret : MRet eff := λ A a, ([], Ok a).
#[global] Instance eff_bind : MBind eff := λ A B k m,
  match m with
  | (evs, Ok a) => let '(evs', r) := k a in (evs ++ evs', r)
  | (evs, Raise e) => (evs, Raise e)
  end.

Definition emit (ev : event) : eff unit := ([ev], Ok ()).
Definition lift {A} (r : result A) : eff A := ([], r).

(** ** The [orderbook_data] argument

    The values a caller can pass: [None], or a dictionary whose keys hold a
    string ([symbol]) or a list of levels ([bids], [asks]); the other cases
    are the remaining Python values with a truth value of their own. *)
Inductive field : Type :=
  | FStr (s : string)
  | FLevels (ls : list level).

Inductive pyval : Type :=
  | PyNone
  | PyBool (b : bool)
  | PyNum (n : Qc)
  | PyStr (s : string)
  | PyList (ls : list level)
  | PyDict (d : gmap string field).

(** [bool(v)] *)
Definition truthy (v : pyval) : bool :=
  match v with
  | PyNone => false
  | PyBool b => b
  | PyNum n => bool_decide (n ≠ 0)
  | PyStr s => bool_decide (s ≠ "")
  | PyList ls => list_truthy ls
  | PyDict d => bool_decide (d ≠ ∅)
  end.

(** [v[key]] for a string key.  A missing key is a [KeyError]; subscripting
    a value that is no dictionary is reported as [TypeError]. *)
Definition subscript (v : pyval) (key : string) : result field :=
  match v with
  | PyDict d =>
      match d !! key with
      | Some f => Ok f
      | None => Raise (KeyError key)
      end
  | _ => Raise TypeError
  end.

(** A field used as a list of [[price, qty]] pairs, or as text.  The
    dictionaries the statements below speak of hold levels under [bids]
    and [asks] and text under [symbol]; what Python does with a field of
    the other kind (iterating over a string, formatting a list) is not
    modelled, and [TypeError] only marks such a field. *)
Definition as_levels (f : field) : result (list level) :=
  match f with
  | FLevels ls => Ok ls
  | FStr _ => Raise TypeError
  end.

Definition as_text (f : field) : result string :=
  match f with
  | FStr s => Ok s
  | FLevels _ => Raise TypeError
  end.

(** ** [create_orderbook_depth_chart] *)

Definition newline : string := String (Ascii.ascii_of_nat 10) EmptyString.

(** The two area traces and the best bid/ask markers, shared by
    [create_orderbook_depth_chart] and the bottom panel of
    [create_combined_chart]. *)
Definition add_depth_traces (fig : figure) (bids asks : list level)
  : result figure :=
  let bid_prices := prices bids in
  let bid_volumes := volumes bids in
  let bid_cumulative := cumulative bid_volumes in
  let ask_prices := prices asks in
  let ask_volumes := volumes asks in
  let ask_cumulative := cumulative ask_volumes in
  let fig :=
    add_trace fig
      (Scatter bid_prices bid_cumulative "Bid Depth" "" "tozeroy" "green") in
  let fig :=
    add_trace fig
      (Scatter ask_prices ask_cumulative "Ask Depth" "" "tozeroy" "red") in
  fig ← (if list_truthy bids then
           best_bid ← best_price bids;
           Ok (add_vline fig best_bid "green" "Best Bid")
         else Ok fig);
  if list_truthy asks then
    best_ask ← best_price asks;
    Ok (add_vline fig best_ask "red" "Best Ask")
  else Ok fig.

Definition create_orderbook_depth_chart
    (orderbook_data : pyval) (output_file : string) : eff (option string) :=
  if negb (truthy orderbook_data) then
    _ ← emit (Print "⚠ No order book data available");
    mret None
  else
    bids ← lift (subscript orderbook_data "bids" ≫= as_levels);
    asks ← lift (subscript orderbook_data "asks" ≫= as_levels);
    _ ← emit NewFigure;
    fig ← lift (add_depth_traces go_Figure bids asks);
    stats ← lift (book_statistics bids asks);
    sym ← lift (subscript orderbook_data "symbol" ≫= as_text);
    let fig :=
      update_layout fig (ChartTitle sym (spread stats) (imbalance stats)) in
    _ ← emit (WriteHtml output_file fig);
    _ ← emit (Print (newline ++ "✓ Order book depth chart saved to: "
                       ++ output_file));
    mret (Some output_file).

(** The bottom panel of [create_combined_chart]: the same statements under
    [if orderbook_data:], adding to the figure of the top panel and ending
    with the statistics annotation. *)
Definition combined_orderbook_panel (fig : figure) (orderbook_data : pyval)
  : result figure :=
  if truthy orderbook_data then
    bids ← subscript orderbook_data "bids" ≫= as_levels;
    asks ← subscript orderbook_data "asks" ≫= as_levels;
    fig ← add_depth_traces fig bids asks;
    stats ← book_statistics bids asks;
    sym ← subscript orderbook_data "symbol" ≫= as_text;
    let stats_text := ChartTitle sym (spread stats) (imbalance stats) in
    Ok (add_annotation fig
          (Annotation (q 1 / q 2) (Some (q 28 / q 100)) (StatsText stats_text)))
  else Ok fig.

(** ** [add_footprint_markers] *)

(** A row of the footprint table. *)
Record footprint_row : Type := FootprintRow {
  datetime : Qc;
  low : Qc;
  high : Qc;
  is_aggressive_buy : bool;
  is_aggressive_sell : bool;
  is_trap : bool;
}.

(** One iteration of the loop over the trap rows: the yellow rectangle of a
    quarter of an hour around the candle, and its warning label. *)
Definition add_trap_zone (fig : figure) (trap : footprint_row) : figure :=
  let fig :=
    add_shape fig
      (Rect (datetime trap - q 15 / q 2) (datetime trap + q 15 / q 2)
            (low trap) (high trap) "rgba(255, 255, 0, 0.3)") in
  add_annotation fig (Annotation (datetime trap) (Some (high trap)) (Text "⚠")).

(** The table is [None] or a list of rows. *)
Definition add_footprint_markers
    (fig : figure) (footprint_df : option (list footprint_row)) : figure :=
  match footprint_df with
  | None => fig
  | Some rows =>
      if bool_decide (length rows = 0%nat) then fig
      else
        let aggressive_buys := filter (λ r, is_aggressive_buy r) rows in
        let fig :=
          if bool_decide (0 < length aggressive_buys)%nat then
            add_trace fig
              (Scatter (datetime <$> aggressive_buys) (low <$> aggressive_buys)
                       "Aggressive Buy" "markers" "" "lime")
          else fig in
        let aggressive_sells := filter (λ r, is_aggressive_sell r) rows in
        let fig :=
          if bool_decide (0 < length aggressive_sells)%nat then
            add_trace fig
              (Scatter (datetime <$> aggressive_sells)
                       (high <$> aggressive_sells)
                       "Aggressive Sell" "markers" "" "red")
          else fig in
        let traps := filter (λ r, is_trap r) rows in
        foldl add_trap_zone fig traps
  end.

(** ** [add_order_flow_profile] *)

(** A row of the order-flow profile. *)
Record profile_row : Type := ProfileRow {
  price_bottom : Qc;
  price_top : Qc;
  buy_volume : Qc;
  sell_volume : Qc;
}.

(** [max(a, b)] *)
Definition py_max (a b : Qc) : Qc := if decide (a < b) then b else a.

(** [column.max()] of a column with first entry [x] and further entries
    [xs]. *)
Definition series_max (x : Qc) (xs : list Qc) : Qc := foldl py_max x xs.

(** [max(profile_df['buy_volume'].max(), profile_df['sell_volume'].max())]
    of a table with first row [row]. *)
Definition profile_max_vol (row : profile_row) (rest : list profile_row) : Qc :=
  py_max (series_max (buy_volume row) (buy_volume <$> rest))
         (series_max (sell_volume row) (sell_volume <$> rest)).

Section bars.

(** The two loops over the rows differ in the column read, the start of
    the bars and their colour. *)
Context (volume : profile_row → Qc) (bar_start : Qc) (color : string).
Context (max_vol profile_scale : Qc).

(**
<<
    if row[column] > 0:
        width = (row[column] / max_vol) * profile_scale
        bar_end = bar_start + pd.Timedelta(minutes=width * 15)
        fig.add_shape(type="rect", x0=bar_start, x1=bar_end, ...)
>> *)
Definition add_bar (fig : figure) (row : profile_row) : result figure :=
  if decide (0 < volume row) then
    ratio ← py_truediv (volume row) max_vol;
    let width := ratio * profile_scale in
    let bar_end := bar_start + width * q 15 in
    Ok (add_shape fig
          (Rect bar_start bar_end (price_bottom row) (price_top row) color))
  else Ok fig.

Fixpoint add_bars (fig : figure) (rows : list profile_row) : result figure :=
  match rows with
  | [] => Ok fig
  | row :: rest => fig ← add_bar fig row; add_bars fig rest
  end.

End bars.

(** [profile_scale] and [offset] default to [20] and [5] in the source. *)
Definition add_order_flow_profile
    (fig : figure) (profile_df : option (list profile_row))
    (current_time profile_scale offset : Qc) : result figure :=
  match profile_df with
  | None => Ok fig
  | Some [] => Ok fig
  | Some (row :: rest) =>
      let max_vol := profile_max_vol row rest in
      if decide (max_vol = 0) then Ok fig
      else
        let time_offset := offset * q 15 in
        fig ← add_bars buy_volume (current_time + time_offset)
                "rgba(0, 255, 187, 0.7)" max_vol profile_scale
                fig (row :: rest);
        let sell_offset := time_offset + (profile_scale + q 2) * q 15 in
        add_bars sell_volume (current_time + sell_offset)
          "rgba(255, 17, 0, 0.7)" max_vol profile_scale
          fig (row :: rest)
  end.

(** ** The same statements on Python's heap

    Lists are objects with an identity.  The statements of the cumulative
    computation are modelled once more over a heap of list objects, to
    follow which object each statement reads and which it changes: a
    comprehension builds a new list, [append] changes a list in place, and
    a [for] loop reads the list it iterates over by position, at each
    iteration. *)
Definition loc : Type := positive.

Inductive obj : Type :=
  | ONums (xs : list Qc)
  | OLevels (ls : list level).

#[global] Instance obj_eq_dec : EqDecision obj.
Proof. solve_decision. Defined.

(** How a run ends: with a value, with an exception, or cut off by the
    bound on the number of loop iterations. *)
Inductive outcome (A : Type) : Type :=
  | Done (a : A)
  | Fault (e : exn)
  | OutOfFuel.
Arguments Done {A} a.
Arguments Fault {A} e.
Arguments OutOfFuel {A}.

Definition prog (A : Type) : Type := gmap loc obj → outcome (A * gmap loc obj).

#[global] Instance prog_ret : MRet prog := λ A a h, Done (a, h).
#[global] Instance prog_bind : MBind prog := λ A B k m h,
  match m h with
  | Done (a, h') => k a h'
  | Fault e => Fault e
  | OutOfFuel => OutOfFuel
  end.

Definition out_of_fuel {A} : prog A := λ _, OutOfFuel.

Definition lift_result {A} (r : result A) : prog A := λ h,
  match r with
  | Ok a => Done (a, h)
  | Raise e => Fault e
  end.

(** A new list object, at an address not in use. *)
Definition new (o : obj) : prog loc := λ h,
  let l := fresh (dom h) in Done (l, <[l := o]> h).

Definition read_levels (l : loc) : prog (list level) := λ h,
  match h !! l with
  | Some (OLevels ls) => Done (ls, h)
  | _ => Fault TypeError
  end.

Definition read_nums (l : loc) : prog (list Qc) := λ h,
  match h !! l with
  | Some (ONums xs) => Done (xs, h)
  | _ => Fault TypeError
  end.

(** [l.append(x)] *)
Definition append (l : loc) (x : Qc) : prog unit := λ h,
  match h !! l with
  | Some (ONums xs) => Done ((), <[l := ONums (xs ++ [x])]> h)
  | _ => Fault TypeError
  end.

(** [for vol in volumes: cumsum += vol; cumulative.append(cumsum)], from
    position [i] on, counting the executions of the loop body in [steps].
    Each iteration looks up position [i] of the list object [volumes] as
    it is then; the loop ends when there is no such position. *)
Fixpoint for_vol (fuel : nat) (volumes cumulative : loc)
    (i : nat) (cumsum : Qc) (steps : nat) : prog (Qc * nat) :=
  match fuel with
  | O => out_of_fuel
  | S fuel =>
      vols ← read_nums volumes;
      match vols !! i with
      | None => mret (cumsum, steps)
      | Some vol =>
          let cumsum := cumsum + vol in
          _ ← append cumulative cumsum;
          for_vol fuel volumes cumulative (S i) cumsum (S steps)
      end
  end.

(** The lists one side contributes: its prices and its cumulative
    volumes, with the number of loop iterations run. *)
Definition side_curve (fuel : nat) (levels : loc) : prog (loc * loc * nat) :=
  side_prices ← (ls ← read_levels levels; new (ONums (prices ls)));
  side_volumes ← (ls ← read_levels levels; new (ONums (volumes ls)));
  side_cumulative ← new (ONums []);
  '(_, steps) ← for_vol fuel side_volumes side_cumulative 0 0 0;
  mret (side_prices, side_cumulative, steps).

Record depth_run : Type := DepthRun {
  bid_prices : loc;
  bid_cumulative : loc;
  ask_prices : loc;
  ask_cumulative : loc;
  stats : statistics;
  steps : nat;
}.

(** The statements from [bids = orderbook_data['bids']] to [spread = ...],
    for the list objects [bids] and [asks] of the snapshot. *)
Definition depth_and_statistics (fuel : nat) (bids asks : loc)
  : prog depth_run :=
  '(bid_prices, bid_cumulative, bid_steps) ← side_curve fuel bids;
  '(ask_prices, ask_cumulative, ask_steps) ← side_curve fuel asks;
  bid_levels ← read_levels bids;
  ask_levels ← read_levels asks;
  stats ← lift_result (book_statistics bid_levels ask_levels);
  mret (DepthRun bid_prices bid_cumulative ask_prices ask_cumulative
          stats (bid_steps + ask_steps)).

(** A heap that holds the example book: its bids at address [1] and its
    asks at address [2]. *)
Definition example_heap : gmap loc obj :=
  <[2%positive := OLevels example_asks]>
    (<[1%positive := OLevels example_bids]> ∅).

(** The curve held by two list objects of a heap. *)
Definition curve_at (h : gmap loc obj) (xs ys : loc)
  : option (list (Qc * Qc)) :=
  match h !! xs, h !! ys with
  | Some (ONums x), Some (ONums y) => Some (zip x y)
  | _, _ => None
  end.

(** Case analysis on the membership of an element in a list that is
    written out. *)
Ltac events_cases :=
  repeat match goal with
    | H : _ ∈ [] |- _ => by apply elem_of_nil in H
    | H : _ ∈ _ :: _ |- _ => apply elem_of_cons in H as [H|H]
    end.

(** ** The markers of the best quotes *)

(** What [if bids: fig.add_vline(x=bids[0][0], ...)] draws for one side: a
    line at the price of the side's first level, and its label; nothing for
    an empty side. *)
Definition best_markers (color : string) (levels : list level) : list shape :=
  match levels with
  | [] => []
  | (price, _) :: _ => [VLine price color]
  end.

Definition best_labels (text : string) (levels : list level)
  : list annotation :=
  match levels with
  | [] => []
  | (price, _) :: _ => [Annotation price None (Text text)]
  end.

(** The dictionary of the example book. *)
Definition example_book : gmap string field :=
  <["symbol" := FStr "BTCUSDT"]>
    (<["bids" := FLevels example_bids]>
       (<["asks" := FLevels example_asks]> ∅)).

(** ** The order books the callers pass

    [orderbook_data] as it is built for these functions: when it is a
    dictionary, what it holds under [bids] and under [asks] is a list of
    levels and what it holds under [symbol] is text.  Any of the keys may
    be missing, and every value that is no dictionary is allowed. *)
Definition holds_levels (d : gmap string field) (key : string) : bool :=
  match d !! key with
  | Some (FStr _) => false
  | _ => true
  end.

Definition holds_text (d : gmap string field) (key : string) : bool :=
  match d !! key with
  | Some (FLevels _) => false
  | _ => true
  end.

Definition well_typed (orderbook_data : pyval) : bool :=
  match orderbook_data with
  | PyDict d =>
      holds_levels d "bids" && holds_levels d "asks" && holds_text d "symbol"
  | _ => true
  end.

Definition is_dict (v : pyval) : bool :=
  match v with
  | PyDict _ => true
  | _ => false
  end.

(** The first key that a dictionary lacks, among the keys the order-book
    statements read and in the order in which they read them:
    [orderbook_data['bids']], [orderbook_data['asks']], then
    [orderbook_data['symbol']]. *)
Definition first_missing_key (d : gmap string field) : option string :=
  match d !! "bids", d !! "asks", d !! "symbol" with
  | None, _, _ => Some "bids"
  | Some _, None, _ => Some "asks"
  | Some _, Some _, None => Some "symbol"
  | Some _, Some _, Some _ => None
  end.

(** A book without its asks. *)
Definition bids_only_dict : gmap string field :=
  {["bids" := FLevels example_bids]}.

(** ** The bars of the order-flow profile *)

(** The bar drawn for a row by one of the loops of
    [add_order_flow_profile]: from [bar_start], as wide as the share of the
    row's volume in [max_vol], in units of [profile_scale] candles of a
    quarter of an hour. *)
Definition profile_bar (volume : profile_row → Qc) (bar_start : Qc)
    (color : string) (max_vol profile_scale : Qc) (row : profile_row)
  : shape :=
  Rect bar_start (bar_start + volume row / max_vol * profile_scale * q 15)
       (price_bottom row) (price_top row) color.

(** The rows of a table that may be [None]. *)
Definition profile_rows (profile_df : option (list profile_row))
  : list profile_row :=
  default [] profile_df.

(** A profile of three price rows, the middle one with the largest
    volume. *)
Definition example_profile : list profile_row :=
  [ProfileRow (q 100) (q 101) (q 4) (q 1);
   ProfileRow (q 101) (q 102) (q 8) (q 2);
   ProfileRow (q 102) (q 103) 0 (q 6)].

(** ** [add_orderbook_overlay] *)

(** A value of the [orderbook_stats] dictionary: a number, or text (the
    imbalance label). *)
Inductive stat_value : Type :=
  | SNum (n : Qc)
  | SText (s : string).

(** How building the text of the overlay ends: with the text, with the
    [KeyError] of a missing key, or with the [ValueError] of a numeric
    format applied to text. *)
Inductive text_result (A : Type) : Type :=
  | TextOk (a : A)
  | TextKeyError (key : string)
  | TextValueError.
Arguments TextOk {A} a.
Arguments TextKeyError {A} key.
Arguments TextValueError {A}.

#[global] Instance text_result_ret : MRet text_result := λ A a, TextOk a.
#[global] Instance text_result_bind : MBind text_result := λ A B k r,
  match r with
  | TextOk a => k a
  | TextKeyError key => TextKeyError key
  | TextValueError => TextValueError
  end.

(** The keys read with a numeric format, in the order of the text. *)
Definition numeric_stat_keys : list string :=
  ["spread"; "spread_pct"; "bid_volume"; "ask_volume"; "volume_ratio"].

Section overlay.

(** Python's number formatting is not modelled: [fmt2] and [fmt3] stand
    for the formats [.2f] and [.3f], [str_num] for the plain conversion of
    a number. *)
Context (fmt2 fmt3 str_num : Qc → string).

(** [f"{orderbook_stats[key]:.2f}"] *)
Definition format_stat (fmt : Qc → string) (d : gmap string stat_value)
    (key : string) : text_result string :=
  match d !! key with
  | None => TextKeyError key
  | Some (SNum n) => TextOk (fmt n)
  | Some (SText _) => TextValueError
  end.

(** [f"{orderbook_stats[key]}"] *)
Definition show_stat (d : gmap string stat_value) (key : string)
  : text_result string :=
  match d !! key with
  | None => TextKeyError key
  | Some (SNum n) => TextOk (str_num n)
  | Some (SText s) => TextOk s
  end.

(** The f-string of the overlay; its fields are evaluated from left to
    right. *)
Definition overlay_text (d : gmap string stat_value) : text_result string :=
  spread ← format_stat fmt2 d "spread";
  spread_pct ← format_stat fmt3 d "spread_pct";
  bid_volume ← format_stat fmt2 d "bid_volume";
  ask_volume ← format_stat fmt2 d "ask_volume";
  volume_ratio ← format_stat fmt2 d "volume_ratio";
  imbalance ← show_stat d "imbalance";
  TextOk ("<b>Order Book (Live)</b><br>"
          +:+ "Spread: $" +:+ spread +:+ " (" +:+ spread_pct +:+ "%)<br>"
          +:+ "Bid Vol: " +:+ bid_volume +:+ "<br>"
          +:+ "Ask Vol: " +:+ ask_volume +:+ "<br>"
          +:+ "Ratio: " +:+ volume_ratio +:+ "<br>"
          +:+ "<b>Imbalance: " +:+ imbalance +:+ "</b>").

(** [orderbook_stats] is [None] or a dictionary; [y_position] defaults to
    ['bottom'] in the source. *)
Definition add_orderbook_overlay
    (fig : figure) (orderbook_stats : option (gmap string stat_value))
    (y_position : string) : text_result figure :=
  match orderbook_stats with
  | None => TextOk fig
  | Some d =>
      if bool_decide (d = ∅) then TextOk fig
      else
        stats_text ← overlay_text d;
        let y_pos :=
          if bool_decide (y_position = "bottom") then q 2 / q 100
          else q 98 / q 100 in
        TextOk (add_annotation fig
                  (Annotation (q 2 / q 100) (Some y_pos) (Text stats_text)))
  end.

End overlay.

(** A dictionary of statistics with all six keys. *)
Definition example_stats : gmap string stat_value :=
  <["spread" := SNum (q 1)]>
    (<["spread_pct" := SNum (q 1)]>
       (<["bid_volume" := SNum (q 5)]>
          (<["ask_volume" := SNum (q 5)]>
             (<["volume_ratio" := SNum (q 1)]>
                (<["imbalance" := SText "BALANCED"]> ∅))))).

(** ** The ratio charts: tables, traces and lines *)

From stdpp Require Import pretty.

Local Open Scope Qc_scope.

(** A row of [btc_df] and a row of [ratio_df].  A moving average that is
    not available yet (NaN) is [None]. *)
Record btc_row : Type := BtcRow {
  btc_datetime : Qc;
  btc_open : Qc;
  btc_high : Qc;
  btc_low : Qc;
  btc_close : Qc;
}.

Record ratio_row : Type := RatioRow {
  ratio_datetime : Qc;
  ar_open : Qc;
  ar_high : Qc;
  ar_low : Qc;
  ar_close : Qc;
  sma20 : option Qc;
  ema21 : option Qc;
  sma50 : option Qc;
}.

(** The traces of the price panel: candlesticks, indicator lines, the
    invisible points that carry the hover data, and marker traces. *)
Inductive panel_trace : Type :=
  | Candlestick (name : string) (x open high low close : list Qc)
  | Line (name : string) (x : list Qc) (y : list (option Qc))
      (color fill : string)
  | HoverPoints (x y : list Qc) (customdata : list (list Qc))
  | Markers (sc : scatter).

(** [fig.add_hline(y=..., line_dash=..., line_color=...,
    annotation_text=..., annotation_position=...)] *)
Record hline : Type := HLine {
  hl_y : Qc;
  hl_dash : string;
  hl_color : string;
  hl_text : string;
  hl_position : string;
}.

Record panel : Type := Panel {
  p_traces : list panel_trace;
  p_hlines : list hline;
  p_title : string;
}.

Definition empty_panel : panel := Panel [] [] "".

Definition panel_add_trace (fig : panel) (tr : panel_trace) : panel :=
  Panel (p_traces fig ++ [tr]) (p_hlines fig) (p_title fig).

Definition add_hline (fig : panel) (hl : hline) : panel :=
  Panel (p_traces fig) (p_hlines fig ++ [hl]) (p_title fig).

Definition set_title (fig : panel) (text : string) : panel :=
  Panel (p_traces fig) (p_hlines fig) text.

Definition trace_name (tr : panel_trace) : string :=
  match tr with
  | Candlestick name _ _ _ _ _ => name
  | Line name _ _ _ _ => name
  | HoverPoints _ _ _ => ""
  | Markers sc => sc_name sc
  end.

Definition btc_candles (btc_df : list btc_row) : panel_trace :=
  Candlestick "BTC/USDT" (btc_datetime <$> btc_df) (btc_open <$> btc_df)
    (btc_high <$> btc_df) (btc_low <$> btc_df) (btc_close <$> btc_df).

Definition ratio_candles (ratio_df : list ratio_row) : panel_trace :=
  Candlestick "Alt Ratio [15M]" (ratio_datetime <$> ratio_df)
    (ar_open <$> ratio_df) (ar_high <$> ratio_df) (ar_low <$> ratio_df)
    (ar_close <$> ratio_df).

Definition sma50_line (ratio_df : list ratio_row) : panel_trace :=
  Line "SMA 50" (ratio_datetime <$> ratio_df) (sma50 <$> ratio_df) "orange" "".

Definition ema21_line (ratio_df : list ratio_row) : panel_trace :=
  Line "EMA 21" (ratio_datetime <$> ratio_df) (ema21 <$> ratio_df) "blue" "".

Definition sma20_line (ratio_df : list ratio_row) : panel_trace :=
  Line "SMA 20" (ratio_datetime <$> ratio_df) (sma20 <$> ratio_df)
    "green" "tonexty".

(** The line of one support or resistance level: [idx] is the label of the
    row in the table's index, and the text counts from one. *)
Definition level_line (color prefix : string) (row : Z * Qc) : hline :=
  HLine row.2 "solid" color (prefix +:+ pretty (row.1 + 1)%Z) "right".

(**
<<
    if support_levels is not None and len(support_levels) > 0:
        for idx, level in support_levels.iterrows():
            fig.add_hline(y=level['price'], ..., annotation_text=f"S{idx+1}")
>> *)
Definition add_level_lines (color prefix : string) (fig : panel)
    (levels : option (list (Z * Qc))) : panel :=
  match levels with
  | None => fig
  | Some rows =>
      if bool_decide (0 < length rows)%nat then
        foldl (λ fig row, add_hline fig (level_line color prefix row)) fig rows
      else fig
  end.

(** [d[key]] on the dictionary of liquidity levels, whose values are a
    number or [None]. *)
Definition liquidity_get (d : gmap string (option Qc)) (key : string)
  : result (option Qc) :=
  match d !! key with
  | Some v => Ok v
  | None => Raise (KeyError key)
  end.

(**
<<
    if bsl_ssl and 'bsl' in bsl_ssl and bsl_ssl['bsl'] is not None:
        fig.add_hline(y=bsl_ssl['bsl'], line_dash="dash", ...)
>> *)
Definition add_liquidity_line (key color text : string) (fig : panel)
    (bsl_ssl : option (gmap string (option Qc))) : result panel :=
  match bsl_ssl with
  | None => Ok fig
  | Some d =>
      if bool_decide (d ≠ ∅) && bool_decide (is_Some (d !! key)) then
        v ← liquidity_get d key;
        match v with
        | None => Ok fig
        | Some _ =>
            y ← liquidity_get d key;
            match y with
            | Some y => Ok (add_hline fig (HLine y "dash" color text "left"))
            | None => Raise TypeError
            end
        end
      else Ok fig
  end.

(** Steps 6 to 9 of both charts: supports, resistances, BSL and SSL. *)
Definition add_all_lines (fig : panel)
    (support_levels resistance_levels : option (list (Z * Qc)))
    (bsl_ssl : option (gmap string (option Qc))) : result panel :=
  let fig := add_level_lines "lime" "S" fig support_levels in
  let fig := add_level_lines "red" "R" fig resistance_levels in
  fig ← add_liquidity_line "bsl" "green" "BSL" fig bsl_ssl;
  add_liquidity_line "ssl" "red" "SSL" fig bsl_ssl.

(** What the two chart functions do besides returning. *)
Inductive chart_event : Type :=
  | RatioChartWritten (file : string) (fig : panel)
  | CombinedChartWritten (file : string) (top : panel) (bottom : figure)
  | ChartPrinted (msg : string).

(** ** [create_altcoin_ratio_chart] *)

Definition ratio_chart_figure
    (btc_df : list btc_row) (ratio_df : list ratio_row)
    (support_levels resistance_levels : option (list (Z * Qc)))
    (bsl_ssl : option (gmap string (option Qc))) : result panel :=
  let fig := empty_panel in
  let fig := panel_add_trace fig (btc_candles btc_df) in
  let fig := panel_add_trace fig (ratio_candles ratio_df) in
  let fig := panel_add_trace fig (sma50_line ratio_df) in
  let fig := panel_add_trace fig (ema21_line ratio_df) in
  let fig := panel_add_trace fig (sma20_line ratio_df) in
  fig ← add_all_lines fig support_levels resistance_levels bsl_ssl;
  Ok (set_title fig "<b>Altcoin Ratio [15M] + BSL/SSL + Auto S/R</b>").

Definition create_altcoin_ratio_chart
    (btc_df : list btc_row) (ratio_df : list ratio_row)
    (support_levels resistance_levels : option (list (Z * Qc)))
    (bsl_ssl : option (gmap string (option Qc))) (output_file : string)
  : list chart_event * result string :=
  match ratio_chart_figure btc_df ratio_df support_levels resistance_levels
          bsl_ssl with
  | Ok fig =>
      ([RatioChartWritten output_file fig;
        ChartPrinted (newline +:+ "✓ Altcoin Ratio chart saved to: "
                      +:+ output_file)],
       Ok output_file)
  | Raise e => ([], Raise e)
  end.

(** ** [create_combined_chart] *)

(** [np.column_stack] of the three indicators with [fillna(0)] and the four
    prices of the ratio candle: one row of seven numbers per candle. *)
Definition hover_data (ratio_df : list ratio_row) : list (list Qc) :=
  (λ r, [default 0 (sma20 r); default 0 (ema21 r); default 0 (sma50 r);
         ar_open r; ar_high r; ar_low r; ar_close r]) <$> ratio_df.

Definition hover_points (ratio_df : list ratio_row) : panel_trace :=
  HoverPoints (ratio_datetime <$> ratio_df) (ar_close <$> ratio_df)
    (hover_data ratio_df).

(** Step 10 of the combined chart: the markers of the aggressive buyers and
    sellers. *)
Definition combined_footprints (fig : panel)
    (footprint_df : option (list footprint_row)) : panel :=
  match footprint_df with
  | None => fig
  | Some rows =>
      if bool_decide (0 < length rows)%nat then
        let aggressive_buys := filter (λ r, is_aggressive_buy r) rows in
        let fig :=
          if bool_decide (0 < length aggressive_buys)%nat then
            panel_add_trace fig
              (Markers
                 (Scatter (datetime <$> aggressive_buys)
                    (low <$> aggressive_buys)
                    "Aggressive Buy" "markers" "" "lime"))
          else fig in
        let aggressive_sells := filter (λ r, is_aggressive_sell r) rows in
        if bool_decide (0 < length aggressive_sells)%nat then
          panel_add_trace fig
            (Markers
               (Scatter (datetime <$> aggressive_sells)
                  (high <$> aggressive_sells)
                  "Aggressive Sell" "markers" "" "red"))
        else fig
      else fig
  end.

Definition combined_top_panel
    (btc_df : list btc_row) (ratio_df : list ratio_row)
    (support_levels resistance_levels : option (list (Z * Qc)))
    (bsl_ssl : option (gmap string (option Qc)))
    (footprint_df : option (list footprint_row)) : result panel :=
  let fig := empty_panel in
  let fig := panel_add_trace fig (btc_candles btc_df) in
  let fig := panel_add_trace fig (ratio_candles ratio_df) in
  let fig := panel_add_trace fig (hover_points ratio_df) in
  let fig := panel_add_trace fig (sma50_line ratio_df) in
  let fig := panel_add_trace fig (ema21_line ratio_df) in
  let fig := panel_add_trace fig (sma20_line ratio_df) in
  fig ← add_all_lines fig support_levels resistance_levels bsl_ssl;
  Ok (combined_footprints fig footprint_df).

(** The two panels are the rows of one figure: the price panel on top, the
    order book below.  [current_time] is the clock time formatted into the
    title; the argument [orderbook_candles] of the source is not read by
    it. *)
Definition create_combined_chart
    (btc_df : list btc_row) (ratio_df : list ratio_row)
    (orderbook_data : pyval)
    (support_levels resistance_levels : option (list (Z * Qc)))
    (bsl_ssl : option (gmap string (option Qc)))
    (footprint_df : option (list footprint_row))
    (current_time output_file : string)
  : list chart_event * result string :=
  match
    top ← combined_top_panel btc_df ratio_df support_levels
            resistance_levels bsl_ssl footprint_df;
    bottom ← combined_orderbook_panel go_Figure orderbook_data;
    Ok (top, bottom)
  with
  | Ok (top, bottom) =>
      ([CombinedChartWritten output_file
          (set_title top
             ("<b>Altcoin Terminal</b><br>Last Update: Dubai "
              +:+ current_time))
          bottom;
        ChartPrinted (newline +:+ "✓ Combined dashboard saved to: "
                      +:+ output_file)],
       Ok output_file)
  | Raise e => ([], Raise e)
  end.

(** The liquidity line drawn for [key]: one line when [bsl_ssl] is a
    dictionary that holds a number under [key], none otherwise. *)
Definition liquidity_lines (key color text : string)
    (bsl_ssl : option (gmap string (option Qc))) : list hline :=
  match bsl_ssl with
  | Some d =>
      match d !! key with
      | Some (Some y) => [HLine y "dash" color text "left"]
      | _ => []
      end
  | None => []
  end.

(** All lines of a price panel, in the order they are drawn. *)
Definition panel_lines
    (support_levels resistance_levels : option (list (Z * Qc)))
    (bsl_ssl : option (gmap string (option Qc))) : list hline :=
  (level_line "lime" "S" <$> default [] support_levels)
  ++ (level_line "red" "R" <$> default [] resistance_levels)
  ++ liquidity_lines "bsl" "green" "BSL" bsl_ssl
  ++ liquidity_lines "ssl" "red" "SSL" bsl_ssl.

(** Example tables: two BTC candles, two ratio candles of which the first
    has no moving averages yet, and liquidity levels without an SSL. *)
Definition example_btc : list btc_row :=
  [BtcRow 0 (q 100) (q 110) (q 95) (q 105);
   BtcRow (q 15) (q 105) (q 108) (q 101) (q 102)].

Definition example_ratio : list ratio_row :=
  [RatioRow 0 (q 10) (q 12) (q 9) (q 11) None None None;
   RatioRow (q 15) (q 11) (q 13) (q 10) (q 12)
     (Some (q 11)) (Some (q 11)) (Some (q 10))].

Definition example_liquidity : gmap string (option Qc) :=
  <["bsl" := Some (q 13)]> (<["ssl" := None]> ∅).

Definition example_footprints : list footprint_row :=
  [FootprintRow 0 (q 9) (q 12) true false false;
   FootprintRow (q 15) (q 10) (q 13) false false true].

(** ** [create_sr_table_text] *)

(** [s * n] *)
Fixpoint py_repeat (s : string) (n : nat) : string :=
  match n with
  | O => ""
  | S n => s +:+ py_repeat s n
  end.

Section sr_table.

(** [fmt_price] stands for the number format [,.2f], which is not
    modelled. *)
Context (fmt_price : Qc → string).

(** [f"\n    R{idx+1}: ${level['price']:,.2f}"] *)
Definition level_text (prefix : string) (row : Z * Qc) : string :=
  newline +:+ "    " +:+ prefix +:+ pretty (row.1 + 1)%Z +:+ ": $"
  +:+ fmt_price row.2.

(** One of the two blocks of the table. *)
Definition add_levels_text (prefix : string) (text : string)
    (levels : option (list (Z * Qc))) : string :=
  match levels with
  | Some (row :: rows) =>
      foldl (λ text row, text +:+ level_text prefix row) text (row :: rows)
  | _ => text +:+ newline +:+ "    None found"
  end.

Definition create_sr_table_text
    (support_levels resistance_levels : option (list (Z * Qc))) : string :=
  let text := newline +:+ py_repeat "=" 50 in
  let text := text +:+ newline +:+ "  SUPPORT & RESISTANCE LEVELS" in
  let text := text +:+ newline +:+ py_repeat "=" 50 in
  let text := text +:+ newline +:+ newline +:+ "  RESISTANCES:" in
  let text := add_levels_text "R" text resistance_levels in
  let text := text +:+ newline +:+ newline +:+ "  SUPPORTS:" in
  let text := add_levels_text "S" text support_levels in
  let text := text +:+ newline +:+ py_repeat "=" 50 in
  text.

End sr_table.

(** [part] occurs in [text]. *)
Definition occurs_in (part text : string) : Prop :=
  ∃ before after, text = before +:+ part +:+ after.

(** [first] occurs in [text], and [second] occurs after it. *)
Definition occurs_before (first second text : string) : Prop :=
  ∃ before between after,
    text = before +:+ first +:+ between +:+ second +:+ after.

(** * Properties *)

(** ** Running sums: the closed form of the loop *)

Lemma cumulative_loop_spec cumsum acc vols :
  cumulative_loop cumsum acc vols
  = (foldl Qcplus cumsum vols, acc ++ prefix_sums cumsum vols).
Proof.
  revert cumsum acc.
  induction vols as [|vol rest IH]; intros cumsum acc; simpl.
  - by rewrite app_nil_r.
  - rewrite IH. by rewrite <- app_assoc.
Qed.

Lemma cumulative_prefix_sums vols : cumulative vols = prefix_sums 0 vols.
Proof. unfold cumulative. by rewrite cumulative_loop_spec. Qed.

Lemma length_prefix_sums start vols :
  length (prefix_sums start vols) = length vols.
Proof.
  revert start. induction vols as [|vol rest IH]; intros start; simpl; [done|].
  by rewrite IH.
Qed.

Lemma length_cumulative vols : length (cumulative vols) = length vols.
Proof. rewrite cumulative_prefix_sums. apply length_prefix_sums. Qed.

Lemma prefix_sums_lookup start vols i :
  (i < length vols)%nat →
  prefix_sums start vols !! i = Some (foldl Qcplus start (take (S i) vols)).
Proof.
  revert start i.
  induction vols as [|vol rest IH]; intros start i Hi; simpl in *; [lia|].
  destruct i as [|i]; simpl; [done|].
  apply IH. lia.
Qed.

Lemma cumulative_lookup vols i :
  (i < length vols)%nat →
  cumulative vols !! i = Some (py_sum (take (S i) vols)).
Proof.
  intros Hi. rewrite cumulative_prefix_sums. by apply prefix_sums_lookup.
Qed.

Lemma prefix_sums_last start vols :
  vols ≠ [] → last (prefix_sums start vols) = Some (foldl Qcplus start vols).
Proof.
  revert start. induction vols as [|vol rest IH]; intros start Hne; [done|].
  destruct rest as [|vol' rest']; [done|].
  change (prefix_sums start (vol :: vol' :: rest'))
    with ((start + vol) :: prefix_sums (start + vol) (vol' :: rest')).
  change (last (?a :: prefix_sums ?s (vol' :: rest')))
    with (last (prefix_sums s (vol' :: rest'))).
  by rewrite IH.
Qed.

(** Sums of non-negative quantities. *)
Lemma foldl_plus_shift start vols :
  foldl Qcplus start vols = start + foldl Qcplus 0 vols.
Proof.
  revert start. induction vols as [|vol rest IH]; intros start; simpl.
  - by rewrite Qcplus_0_r.
  - rewrite IH, (IH (0 + vol)). rewrite Qcplus_0_l. by rewrite Qcplus_assoc.
Qed.

Lemma py_sum_cons vol rest : py_sum (vol :: rest) = vol + py_sum rest.
Proof. unfold py_sum. simpl. rewrite foldl_plus_shift. by rewrite Qcplus_0_l. Qed.

Lemma py_sum_app xs ys : py_sum (xs ++ ys) = py_sum xs + py_sum ys.
Proof.
  unfold py_sum. rewrite foldl_app. apply foldl_plus_shift.
Qed.

Lemma py_sum_nonneg vols : Forall (λ v, 0 ≤ v) vols → 0 ≤ py_sum vols.
Proof.
  induction 1 as [|vol rest Hv _ IH]; [done|].
  rewrite py_sum_cons.
  rewrite <- (Qcplus_0_l 0). by apply Qcplus_le_compat.
Qed.

Lemma py_sum_take_mono vols i j :
  Forall (λ v, 0 ≤ v) vols → (i ≤ j)%nat →
  py_sum (take i vols) ≤ py_sum (take j vols).
Proof.
  intros Hpos Hij.
  replace j with (i + (j - i))%nat by lia.
  rewrite <- take_take_drop, py_sum_app.
  rewrite <- (Qcplus_0_r (py_sum (take i vols))) at 1.
  apply Qcplus_le_compat; [done|].
  apply py_sum_nonneg.
  by apply Forall_take, Forall_drop.
Qed.

Lemma py_sum_take_S vols i vol :
  vols !! i = Some vol → py_sum (take (S i) vols) = py_sum (take i vols) + vol.
Proof.
  intros Hi. rewrite (take_S_r _ _ _ Hi), py_sum_app.
  f_equal. unfold py_sum. simpl. apply Qcplus_0_l.
Qed.

Lemma cumulative_non_decreasing vols :
  Forall (λ v, 0 ≤ v) vols → non_decreasing (cumulative vols).
Proof.
  intros Hpos i j a b Hij Ha Hb.
  assert (j < length vols)%nat as Hj.
  { rewrite <- length_cumulative. by apply lookup_lt_is_Some. }
  rewrite cumulative_lookup in Ha, Hb by lia.
  injection Ha as <-. injection Hb as <-.
  apply py_sum_take_mono; [done | lia].
Qed.

(** ** The depth curve *)

Lemma length_prices levels : length (prices levels) = length levels.
Proof. apply length_fmap. Qed.

Lemma length_volumes levels : length (volumes levels) = length levels.
Proof. apply length_fmap. Qed.

Lemma depth_curve_length levels : length (depth_curve levels) = length levels.
Proof.
  unfold depth_curve.
  rewrite length_zip, length_cumulative, length_prices, length_volumes. lia.
Qed.

Lemma depth_curve_snd levels :
  (depth_curve levels).*2 = cumulative (volumes levels).
Proof.
  apply snd_zip.
  by rewrite length_cumulative, length_prices, length_volumes.
Qed.

Lemma depth_curve_lookup levels i p v :
  levels !! i = Some (p, v) →
  depth_curve levels !! i = Some (p, py_sum (take (S i) (volumes levels))).
Proof.
  intros Hi. unfold depth_curve.
  rewrite lookup_zip_with.
  unfold prices. rewrite list_lookup_fmap, Hi. simpl.
  rewrite cumulative_lookup.
  - done.
  - rewrite length_volumes. by eapply lookup_lt_Some.
Qed.

Lemma depth_curve_total levels :
  levels ≠ [] →
  curve_total (depth_curve levels) = Some (py_sum (volumes levels)).
Proof.
  intros Hne. unfold curve_total.
  rewrite <- fmap_last, depth_curve_snd, cumulative_prefix_sums.
  apply prefix_sums_last.
  by destruct levels.
Qed.

(** The program's sum of the volumes is the sum of the quantities of the
    levels. *)
Lemma py_sum_volumes levels : py_sum (volumes levels) = total_quantity levels.
Proof.
  induction levels as [|[p v] rest IH]; [done|].
  change (volumes ((p, v) :: rest)) with (v :: volumes rest).
  rewrite py_sum_cons, IH. done.
Qed.

Lemma py_sum_volumes_take levels n :
  py_sum (take n (volumes levels)) = total_quantity (take n levels).
Proof.
  unfold volumes. rewrite <- fmap_take. apply py_sum_volumes.
Qed.

Lemma depth_curve_running_sum levels i p v :
  levels !! i = Some (p, v) →
  depth_curve levels !! i = Some (p, total_quantity (take (S i) levels)).
Proof.
  intros Hi. rewrite (depth_curve_lookup _ _ _ _ Hi).
  by rewrite py_sum_volumes_take.
Qed.

Lemma depth_curve_total_quantity levels :
  levels ≠ [] →
  curve_total (depth_curve levels) = Some (total_quantity levels).
Proof.
  intros Hne. rewrite depth_curve_total by done. by rewrite py_sum_volumes.
Qed.

(** C1.  For levels with non-negative quantities, the depth-curve
    computation returns a curve of the length of its input, whose cumulative
    quantity at index [i] is the sum of the quantities at indices [0..i];
    the cumulative quantities are non-decreasing, and for a non-empty input
    the last one is the sum of all quantities. *)
Theorem depth_curve_running_sums (levels : list level) :
  Forall (λ l, 0 ≤ l.2) levels →
  ∃ curve,
    computeDepthCurve levels = Ok curve
    ∧ length curve = length levels
    ∧ (∀ i p v, levels !! i = Some (p, v) →
         curve !! i = Some (p, total_quantity (take (S i) levels)))
    ∧ non_decreasing (curve.*2)
    ∧ (levels ≠ [] → curve_total curve = Some (total_quantity levels)).
Proof.
  intros Hpos. exists (depth_curve levels).
  split; [done|]. split; [apply depth_curve_length|].
  split; [apply depth_curve_running_sum|].
  split; [|apply depth_curve_total_quantity].
  rewrite depth_curve_snd. apply cumulative_non_decreasing.
  unfold volumes. by apply Forall_fmap.
Qed.

Lemma depth_curve_running_sums_witness :
  Forall (λ l, 0 ≤ l.2) example_bids
  ∧ ∃ curve,
      computeDepthCurve example_bids = Ok curve
      ∧ curve !! 0%nat = Some (q 100, q 2)
      ∧ curve !! 1%nat = Some (q 99, q 5)
      ∧ non_decreasing (curve.*2)
      ∧ curve_total curve = Some (q 5).
Proof.
  assert (Forall (λ l : level, 0 ≤ l.2) example_bids) as Hpos by by_eval.
  split; [exact Hpos|].
  destruct (depth_curve_running_sums example_bids Hpos)
    as (curve & Hrun & _ & Hsums & Hmono & Hlast).
  exists curve. split; [exact Hrun|].
  split; [rewrite (Hsums 0%nat (q 100) (q 2) eq_refl); by_eval|].
  split; [rewrite (Hsums 1%nat (q 99) (q 3) eq_refl); by_eval|].
  split; [exact Hmono|].
  rewrite Hlast by discriminate. by_eval.
Defined.

(** ** Negative quantities *)

(** The running sum before position [i], read off the curve that starts
    from the initial [cumsum = 0]. *)
Lemma cumulative_from_zero_lookup vols i :
  (i ≤ length vols)%nat →
  (0 :: cumulative vols) !! i = Some (py_sum (take i vols)).
Proof.
  intros Hi. destruct i as [|i]; [done|].
  simpl. apply cumulative_lookup. lia.
Qed.

Lemma py_sum_drop_at_negative vols i vol :
  vols !! i = Some vol → vol < 0 →
  py_sum (take (S i) vols) < py_sum (take i vols).
Proof.
  intros Hi Hneg. rewrite (py_sum_take_S _ _ _ Hi).
  rewrite <- (Qcplus_0_r (py_sum (take i vols))) at 2.
  by apply Qcplus_lt_mono_l.
Qed.

(** C2, as stated, fails: on [[[100, 2], [99, -3]]] the computation returns
    the curve [[(100, 2), (99, -1)]] and no [InvalidInput]. *)
Lemma depth_curve_negative_counterexample :
  Exists (λ l, l.2 < 0) [(q 100, q 2); (q 99, q (-3))]
  ∧ computeDepthCurve [(q 100, q 2); (q 99, q (-3))]
    = Ok [(q 100, q 2); (q 99, q (-1))]
  ∧ computeDepthCurve [(q 100, q 2); (q 99, q (-3))] ≠ Raise InvalidInput.
Proof.
  split; [by_eval|]. split; [by_eval|]. discriminate.
Qed.

(** C2, amended.  For levels with at least one negative quantity the
    depth-curve computation does not fail with [InvalidInput]: it returns
    the cumulative curve, of the length of its input, whose cumulative
    quantity at index [i] is the sum of the quantities at indices
    [0..i]. *)
Theorem depth_curve_negative_quantity (levels : list level) :
  Exists (λ l, l.2 < 0) levels →
  ∃ curve,
    computeDepthCurve levels = Ok curve
    ∧ computeDepthCurve levels ≠ Raise InvalidInput
    ∧ length curve = length levels
    ∧ (∀ i p v, levels !! i = Some (p, v) →
         curve !! i = Some (p, total_quantity (take (S i) levels))).
Proof.
  intros _. exists (depth_curve levels).
  split; [done|]. split; [done|]. split; [apply depth_curve_length|].
  apply depth_curve_running_sum.
Qed.

Lemma depth_curve_negative_quantity_witness :
  Exists (λ l, l.2 < 0) [(q 100, q 2); (q 99, q (-3))]
  ∧ ∃ curve,
      computeDepthCurve [(q 100, q 2); (q 99, q (-3))] = Ok curve
      ∧ length curve = 2%nat
      ∧ curve !! 1%nat = Some (q 99, q (-1)).
Proof.
  assert (Exists (λ l : level, l.2 < 0) [(q 100, q 2); (q 99, q (-3))])
    as Hneg by by_eval.
  split; [exact Hneg|].
  destruct (depth_curve_negative_quantity _ Hneg)
    as (curve & Hrun & _ & Hlen & Hsums).
  exists curve. split; [exact Hrun|]. split; [exact Hlen|].
  rewrite (Hsums 1%nat (q 99) (q (-3)) eq_refl). by_eval.
Defined.

(** ** Statistics *)

Lemma py_truediv_ok a b : b ≠ 0 → py_truediv a b = Ok (a / b).
Proof. intros Hb. unfold py_truediv. by rewrite decide_False. Qed.

Lemma Qcdiv_0_l (b : Qc) : 0 / b = 0.
Proof. unfold Qcdiv. apply Qcmult_0_l. Qed.

(** The guard [ask_volume > 0] keeps the division from raising. *)
Lemma imbalance_ok (bid_vol ask_vol : Qc) :
  (if decide (0 < ask_vol) then py_truediv bid_vol ask_vol else Ok 0)
  = Ok (if decide (0 < ask_vol) then bid_vol / ask_vol else 0).
Proof.
  destruct (decide (0 < ask_vol)) as [Hpos|]; [|done].
  apply py_truediv_ok. intros ->. by apply Qclt_not_eq in Hpos.
Qed.

(** The guard [asks and bids] keeps the subscripts [[0]] in range. *)
Lemma spread_ok (bids asks : list level) :
  (if list_truthy asks && list_truthy bids then
     best_ask ← best_price asks;
     best_bid ← best_price bids;
     Ok (best_ask - best_bid)
   else Ok 0)
  = Ok (match asks, bids with
        | (best_ask, _) :: _, (best_bid, _) :: _ => best_ask - best_bid
        | _, _ => 0
        end).
Proof. by destruct asks as [|[??]?], bids as [|[??]?]. Qed.

Lemma book_statistics_ok (bids asks : list level) :
  book_statistics bids asks
  = Ok (Statistics
          (py_sum (volumes bids))
          (py_sum (volumes asks))
          (if decide (0 < py_sum (volumes asks))
           then py_sum (volumes bids) / py_sum (volumes asks) else 0)
          (match asks, bids with
           | (best_ask, _) :: _, (best_bid, _) :: _ => best_ask - best_bid
           | _, _ => 0
           end)).
Proof.
  unfold book_statistics. by rewrite imbalance_ok, spread_ok.
Qed.

(** C3.  A snapshot whose total ask volume is exactly [0], or one of whose
    sides has no levels, raises no exception: the statistics are returned,
    with volume ratio [0]; when a side has no levels the spread is [0] as
    well and the missing side counts as volume [0]. *)
Theorem statistics_degenerate_book (snap : snapshot) :
  py_sum (volumes (asks snap)) = 0 ∨ bids snap = [] ∨ asks snap = [] →
  ∃ st,
    computeStatistics snap = Ok st
    ∧ bid_volume st = py_sum (volumes (bids snap))
    ∧ ask_volume st = py_sum (volumes (asks snap))
    ∧ imbalance st = 0
    ∧ (bids snap = [] ∨ asks snap = [] →
       spread st = 0
       ∧ (bids snap = [] → bid_volume st = 0)
       ∧ (asks snap = [] → ask_volume st = 0)).
Proof.
  intros Hdeg. unfold computeStatistics. rewrite book_statistics_ok.
  eexists. split; [done|]. simpl. split; [done|]. split; [done|]. split.
  - destruct (decide (0 < py_sum (volumes (asks snap)))) as [Hpos|]; [|done].
    destruct Hdeg as [Hz|[Hb|Ha]].
    + rewrite Hz in Hpos. by apply Qclt_not_eq in Hpos.
    + rewrite Hb. apply Qcdiv_0_l.
    + rewrite Ha in Hpos. by apply Qclt_not_eq in Hpos.
  - intros Hside. split.
    + destruct Hside as [->| ->]; [|done]. by destruct (asks snap) as [|[??]?].
    + split; by intros ->.
Qed.

Lemma statistics_degenerate_book_witness :
  (py_sum (volumes (asks bids_only_book)) = 0
   ∨ bids bids_only_book = [] ∨ asks bids_only_book = [])
  ∧ ∃ st,
      computeStatistics bids_only_book = Ok st
      ∧ imbalance st = 0 ∧ spread st = 0 ∧ ask_volume st = 0.
Proof.
  assert (py_sum (volumes (asks bids_only_book)) = 0
          ∨ bids bids_only_book = [] ∨ asks bids_only_book = [])
    as Hdeg by (right; right; reflexivity).
  split; [exact Hdeg|].
  destruct (statistics_degenerate_book bids_only_book Hdeg)
    as (st & Hrun & _ & _ & Hratio & Hside).
  exists st. split; [exact Hrun|]. split; [exact Hratio|].
  destruct Hside as (Hspread & _ & Hask); [right; reflexivity|].
  split; [exact Hspread|]. apply Hask. reflexivity.
Defined.

(** C4.  For bids [[[100, 2], [99, 3]]] and asks [[[101, 1], [102, 4]]] the
    statistics are spread [1], bid volume [5], ask volume [5] and volume
    ratio [1], and the spread percentage is [1]. *)
Theorem statistics_example (sym : string) :
  computeStatistics (Snapshot sym example_bids example_asks)
  = Ok {| bid_volume := q 5; ask_volume := q 5;
          imbalance := q 1; spread := q 1 |}
  ∧ spreadPct (Snapshot sym example_bids example_asks) = Ok (q 1).
Proof.
  unfold spreadPct, computeStatistics. simpl bids. simpl asks.
  split; by_eval.
Qed.

(** ** Reordering the levels *)

Lemma py_sum_Permutation (xs ys : list Qc) : xs ≡ₚ ys → py_sum xs = py_sum ys.
Proof.
  induction 1 as [|x xs ys _ IH|x y xs|xs ys zs _ IH1 _ IH2].
  - done.
  - by rewrite !py_sum_cons, IH.
  - rewrite !py_sum_cons, !Qcplus_assoc. f_equal. apply Qcplus_comm.
  - by rewrite IH1.
Qed.

Lemma volumes_Permutation (ls1 ls2 : list level) :
  ls1 ≡ₚ ls2 → py_sum (volumes ls1) = py_sum (volumes ls2).
Proof.
  intros Hperm. apply py_sum_Permutation. unfold volumes. by rewrite Hperm.
Qed.

Lemma depth_curve_total_cases levels :
  curve_total (depth_curve levels)
  = match levels with
    | [] => None
    | _ :: _ => Some (py_sum (volumes levels))
    end.
Proof.
  destruct levels as [|l ls]; [done|]. by apply depth_curve_total.
Qed.

Lemma depth_curve_total_Permutation (ls1 ls2 : list level) :
  ls1 ≡ₚ ls2 →
  curve_total (depth_curve ls1) = curve_total (depth_curve ls2).
Proof.
  intros Hperm. rewrite !depth_curve_total_cases.
  destruct ls1 as [|l1 ls1], ls2 as [|l2 ls2].
  - done.
  - by apply Permutation_nil_cons in Hperm.
  - symmetry in Hperm. by apply Permutation_nil_cons in Hperm.
  - f_equal. by apply volumes_Permutation.
Qed.

(** C5, as stated, fails on float quantities: the bid levels with the
    quantities [0.1], [0.2], [0.3] and the same levels in reverse order are
    permutations of each other, and the final cumulative totals of their
    depth curves differ ([0.6000000000000001] against [0.6]). *)
Lemma float_total_depends_on_order :
  float_bids ≡ₚ reverse float_bids
  ∧ float_curve_total (float_depth_curve float_bids)
    ≠ float_curve_total (float_depth_curve (reverse float_bids)).
Proof.
  split; [apply Permutation_sym, reverse_Permutation|].
  intros Heq.
  apply (f_equal (λ total,
            match total with
            | Some x => PrimFloat.eqb x 0x1.3333333333333p-1%float
            | None => false
            end)) in Heq.
  vm_compute in Heq. discriminate.
Qed.

(** C5, amended.  For quantities that are added exactly (integers,
    rationals), permuting the levels of either side changes neither the
    total bid volume, the total ask volume and the volume ratio of the
    statistics, nor the final cumulative total of either depth curve: the
    volumes are the sums of the quantities of the sides, and so is the last
    value of a non-empty curve.  The intermediate values of a curve can
    change with the order. *)
Theorem statistics_order_independent (snap1 snap2 : snapshot) :
  bids snap1 ≡ₚ bids snap2 → asks snap1 ≡ₚ asks snap2 →
  (∃ st1 st2,
     computeStatistics snap1 = Ok st1
     ∧ computeStatistics snap2 = Ok st2
     ∧ bid_volume st1 = total_quantity (bids snap1)
     ∧ ask_volume st1 = total_quantity (asks snap1)
     ∧ bid_volume st1 = bid_volume st2
     ∧ ask_volume st1 = ask_volume st2
     ∧ imbalance st1 = imbalance st2)
  ∧ curve_total (depth_curve (bids snap1))
    = curve_total (depth_curve (bids snap2))
  ∧ curve_total (depth_curve (asks snap1))
    = curve_total (depth_curve (asks snap2))
  ∧ (bids snap1 ≠ [] →
     curve_total (depth_curve (bids snap1))
     = Some (total_quantity (bids snap1)))
  ∧ (asks snap1 ≠ [] →
     curve_total (depth_curve (asks snap1))
     = Some (total_quantity (asks snap1)))
  ∧ (∃ ls1 ls2 : list level,
       ls1 ≡ₚ ls2 ∧ (depth_curve ls1).*2 ≠ (depth_curve ls2).*2).
Proof.
  intros Hbids Hasks. split; [|split; [|split; [|split; [|split]]]].
  - unfold computeStatistics. rewrite !book_statistics_ok.
    eexists _, _. split; [done|]. split; [done|]. simpl.
    split; [apply py_sum_volumes|]. split; [apply py_sum_volumes|].
    rewrite (volumes_Permutation _ _ Hbids), (volumes_Permutation _ _ Hasks).
    done.
  - by apply depth_curve_total_Permutation.
  - by apply depth_curve_total_Permutation.
  - apply depth_curve_total_quantity.
  - apply depth_curve_total_quantity.
  - exists example_bids, (reverse example_bids). split.
    + apply Permutation_sym, reverse_Permutation.
    + by_eval.
Qed.

Lemma statistics_order_independent_witness :
  example_bids ≡ₚ reverse example_bids
  ∧ example_asks ≡ₚ reverse example_asks
  ∧ curve_total (depth_curve example_bids)
    = curve_total (depth_curve (reverse example_bids))
  ∧ ∃ st1 st2,
      computeStatistics (Snapshot "BTCUSDT" example_bids example_asks) = Ok st1
      ∧ computeStatistics
          (Snapshot "BTCUSDT" (reverse example_bids) (reverse example_asks))
        = Ok st2
      ∧ bid_volume st1 = q 5
      ∧ imbalance st1 = imbalance st2.
Proof.
  assert (example_bids ≡ₚ reverse example_bids) as Hbids
    by (vm_compute; apply perm_swap).
  assert (example_asks ≡ₚ reverse example_asks) as Hasks
    by (vm_compute; apply perm_swap).
  split; [exact Hbids|]. split; [exact Hasks|].
  destruct (statistics_order_independent
              (Snapshot "BTCUSDT" example_bids example_asks)
              (Snapshot "BTCUSDT" (reverse example_bids) (reverse example_asks))
              Hbids Hasks)
    as ((st1 & st2 & Hrun1 & Hrun2 & Hbid & _ & _ & _ & Hratio) & Htotal & _).
  split; [exact Htotal|].
  exists st1, st2. split; [exact Hrun1|]. split; [exact Hrun2|].
  split; [rewrite Hbid; by_eval|exact Hratio].
Defined.

(** ** The chart of a well-formed book *)

(** Both charts plot the two depth curves: the guards [if bids:] and
    [if asks:] keep the subscripts in range, and the traces added are the
    prices against the cumulative volumes of each side. *)
Lemma add_depth_traces_ok (fig : figure) (bids asks : list level) :
  ∃ fig',
    add_depth_traces fig bids asks = Ok fig'
    ∧ traces fig'
      = traces fig
        ++ [Scatter (prices bids) (cumulative (volumes bids))
              "Bid Depth" "" "tozeroy" "green";
            Scatter (prices asks) (cumulative (volumes asks))
              "Ask Depth" "" "tozeroy" "red"].
Proof.
  unfold add_depth_traces.
  destruct bids as [|[bp bv] bids], asks as [|[ap av] asks];
    (eexists; split; [reflexivity|]); simpl; by rewrite <- app_assoc.
Qed.

(** For a dictionary with the three keys, [create_orderbook_depth_chart]
    constructs one figure, writes it and returns the file name. *)
Lemma create_orderbook_depth_chart_ok
    (d : gmap string field) (sym : string) (bids asks : list level)
    (output_file : string) :
  d !! "symbol" = Some (FStr sym) →
  d !! "bids" = Some (FLevels bids) →
  d !! "asks" = Some (FLevels asks) →
  ∃ fig msg,
    create_orderbook_depth_chart (PyDict d) output_file
    = ([NewFigure; WriteHtml output_file fig; Print msg],
       Ok (Some output_file))
    ∧ traces fig
      = [Scatter (prices bids) (cumulative (volumes bids))
           "Bid Depth" "" "tozeroy" "green";
         Scatter (prices asks) (cumulative (volumes asks))
           "Ask Depth" "" "tozeroy" "red"].
Proof.
  intros Hsym Hbids Hasks.
  destruct (add_depth_traces_ok go_Figure bids asks) as (fig & Hfig & Htraces).
  unfold create_orderbook_depth_chart.
  assert (truthy (PyDict d) = true) as ->.
  { simpl. apply bool_decide_eq_true_2. intros ->.
    by rewrite lookup_empty in Hsym. }
  unfold subscript. rewrite Hsym, Hbids, Hasks. simpl.
  rewrite Hfig, book_statistics_ok. simpl.
  eexists _, _. split; [reflexivity|]. simpl. exact Htraces.
Qed.

(** ** Guards of the chart functions *)

(** C8.  For a falsy [orderbook_data] ([None], an empty dictionary, or any
    other falsy value) [create_orderbook_depth_chart] returns [None]; it
    prints its warning and neither constructs a figure nor writes a
    file. *)
Theorem falsy_orderbook_returns_none
    (orderbook_data : pyval) (output_file : string) :
  truthy orderbook_data = false →
  ∃ events,
    create_orderbook_depth_chart orderbook_data output_file = (events, Ok None)
    ∧ events = [Print "⚠ No order book data available"]
    ∧ (NewFigure ∉ events)
    ∧ (∀ file fig, WriteHtml file fig ∉ events).
Proof.
  intros Hfalsy. unfold create_orderbook_depth_chart. rewrite Hfalsy. simpl.
  eexists. split; [reflexivity|]. split; [reflexivity|].
  split; [|intros file fig]; intros Hin;
    apply list_elem_of_singleton in Hin; discriminate.
Qed.

Lemma falsy_orderbook_returns_none_witness :
  (truthy PyNone = false ∧ truthy (PyDict ∅) = false)
  ∧ create_orderbook_depth_chart PyNone "orderbook_depth.html"
    = ([Print "⚠ No order book data available"], Ok None)
  ∧ create_orderbook_depth_chart (PyDict ∅) "orderbook_depth.html"
    = ([Print "⚠ No order book data available"], Ok None).
Proof.
  assert (truthy PyNone = false) as Hnone by reflexivity.
  assert (truthy (PyDict ∅) = false) as Hempty by reflexivity.
  split; [split; [exact Hnone|exact Hempty]|].
  split.
  - destruct (falsy_orderbook_returns_none PyNone "orderbook_depth.html" Hnone)
      as (events & Hrun & -> & _).
    exact Hrun.
  - destruct (falsy_orderbook_returns_none (PyDict ∅) "orderbook_depth.html"
                Hempty)
      as (events & Hrun & -> & _).
    exact Hrun.
Defined.

(** C10.  When the footprint table is [None] or has no rows,
    [add_footprint_markers] returns the figure it was given: no trace,
    shape or annotation is added. *)
Theorem footprint_markers_empty
    (fig : figure) (footprint_df : option (list footprint_row)) :
  footprint_df = None
  ∨ (∃ rows, footprint_df = Some rows ∧ length rows = 0%nat) →
  add_footprint_markers fig footprint_df = fig.
Proof.
  intros [->|(rows & -> & Hlen)]; [done|].
  unfold add_footprint_markers. by rewrite bool_decide_eq_true_2.
Qed.

Lemma footprint_markers_empty_witness :
  add_footprint_markers go_Figure None = go_Figure
  ∧ add_footprint_markers go_Figure (Some []) = go_Figure.
Proof.
  split.
  - apply (footprint_markers_empty go_Figure None). left. reflexivity.
  - apply (footprint_markers_empty go_Figure (Some [])). right.
    exists []. split; reflexivity.
Defined.

(** ** The order-flow profile never divides by zero *)

Lemma py_max_ge_l a b : a ≤ py_max a b.
Proof.
  unfold py_max. destruct (decide (a < b)) as [Hlt|]; [|done].
  by apply Qclt_le_weak.
Qed.

Lemma py_max_ge_r a b : b ≤ py_max a b.
Proof.
  unfold py_max. destruct (decide (a < b)) as [|Hnlt]; [done|].
  by apply Qcnot_lt_le.
Qed.

Lemma series_max_ge_first x xs : x ≤ series_max x xs.
Proof.
  unfold series_max. revert x.
  induction xs as [|y ys IH]; intros x; simpl; [done|].
  eapply Qcle_trans; [apply (py_max_ge_l x y)|apply IH].
Qed.

Lemma series_max_ge x xs y : y ∈ x :: xs → y ≤ series_max x xs.
Proof.
  revert x. induction xs as [|z zs IH]; intros x Hin.
  - apply list_elem_of_singleton in Hin as ->. done.
  - apply elem_of_cons in Hin as [->|Hin]; [apply series_max_ge_first|].
    change (series_max x (z :: zs)) with (series_max (py_max x z) zs).
    apply elem_of_cons in Hin as [->|Hin].
    + eapply Qcle_trans; [apply (py_max_ge_r x z)|apply series_max_ge_first].
    + apply IH. by right.
Qed.

Lemma profile_max_vol_ge_buy row rest r :
  r ∈ row :: rest → buy_volume r ≤ profile_max_vol row rest.
Proof.
  intros Hin. unfold profile_max_vol.
  eapply Qcle_trans; [|apply py_max_ge_l].
  apply series_max_ge.
  change (buy_volume r ∈ buy_volume <$> row :: rest).
  by apply list_elem_of_fmap_2.
Qed.

Lemma profile_max_vol_ge_sell row rest r :
  r ∈ row :: rest → sell_volume r ≤ profile_max_vol row rest.
Proof.
  intros Hin. unfold profile_max_vol.
  eapply Qcle_trans; [|apply py_max_ge_r].
  apply series_max_ge.
  change (sell_volume r ∈ sell_volume <$> row :: rest).
  by apply list_elem_of_fmap_2.
Qed.

(** A loop over the rows raises nothing when every row it draws a bar for
    has a volume below a positive [max_vol]. *)
Lemma add_bars_ok volume bar_start color max_vol profile_scale rows fig :
  (∀ r, r ∈ rows → 0 < volume r → 0 < max_vol) →
  ∃ fig', add_bars volume bar_start color max_vol profile_scale fig rows
          = Ok fig'.
Proof.
  revert fig. induction rows as [|row rest IH]; intros fig Hrows; simpl.
  - by eexists.
  - unfold add_bar at 1.
    destruct (decide (0 < volume row)) as [Hpos|].
    + rewrite py_truediv_ok; simpl.
      * apply IH. intros r Hr. apply Hrows. by right.
      * intros Hz. specialize (Hrows row (list_elem_of_here _ _) Hpos).
        rewrite Hz in Hrows. by apply Qclt_not_eq in Hrows.
    + simpl. apply IH. intros r Hr. apply Hrows. by right.
Qed.

(** C9.  [add_order_flow_profile] never divides by zero.  It returns the
    figure unchanged, before any division, when the profile is [None] or
    empty or when the largest buy or sell volume is [0]; otherwise every
    row for which a bar width is computed (a row with a positive buy or
    sell volume) meets a positive [max_vol], and the call ends without a
    [ZeroDivisionError]. *)
Theorem order_flow_profile_no_zero_division
    (fig : figure) (profile_df : option (list profile_row))
    (current_time profile_scale offset : Qc) :
  (∃ fig',
     add_order_flow_profile fig profile_df current_time profile_scale offset
     = Ok fig')
  ∧ (profile_df = None ∨ profile_df = Some []
     ∨ (∃ row rest,
          profile_df = Some (row :: rest) ∧ profile_max_vol row rest = 0) →
     add_order_flow_profile fig profile_df current_time profile_scale offset
     = Ok fig)
  ∧ (∀ row rest r,
       profile_df = Some (row :: rest) → r ∈ row :: rest →
       0 < buy_volume r ∨ 0 < sell_volume r →
       0 < profile_max_vol row rest).
Proof.
  assert (∀ row rest r,
            r ∈ row :: rest → 0 < buy_volume r ∨ 0 < sell_volume r →
            0 < profile_max_vol row rest) as Hmax.
  { intros row rest r Hin [Hbuy|Hsell].
    - eapply Qclt_le_trans; [exact Hbuy|by apply profile_max_vol_ge_buy].
    - eapply Qclt_le_trans; [exact Hsell|by apply profile_max_vol_ge_sell]. }
  split; [|split].
  - unfold add_order_flow_profile.
    destruct profile_df as [[|row rest]|]; [by eexists| |by eexists].
    destruct (decide (profile_max_vol row rest = 0)); [by eexists|].
    edestruct (add_bars_ok buy_volume) as [fig1 Hbuy]; [|rewrite Hbuy].
    { intros r Hin Hpos. apply (Hmax row rest r Hin). by left. }
    apply add_bars_ok.
    intros r Hin Hpos. apply (Hmax row rest r Hin). by right.
  - intros [->|[->|(row & rest & -> & Hzero)]]; [done|done|].
    unfold add_order_flow_profile. by rewrite decide_True.
  - intros row rest r _. apply Hmax.
Qed.

Lemma order_flow_profile_no_zero_division_witness :
  profile_max_vol (ProfileRow (q 10) (q 11) 0 0) [] = 0
  ∧ add_order_flow_profile go_Figure (Some [ProfileRow (q 10) (q 11) 0 0])
      (q 600) (q 20) (q 5)
    = Ok go_Figure.
Proof.
  assert (profile_max_vol (ProfileRow (q 10) (q 11) 0 0) [] = 0) as Hzero
    by by_eval.
  split; [exact Hzero|].
  destruct (order_flow_profile_no_zero_division
              go_Figure (Some [ProfileRow (q 10) (q 11) 0 0])
              (q 600) (q 20) (q 5)) as (_ & Hearly & _).
  apply Hearly. right. right. eexists _, _. split; [reflexivity|exact Hzero].
Defined.

(** ** The run on the heap *)

(** The loop, started at position [i] on a list [vols] that is another
    object than the list it appends to, runs its body once per remaining
    position and then ends. *)
Lemma for_vol_spec fuel volumes_at cumulative_at vols :
  volumes_at ≠ cumulative_at →
  ∀ i cumsum steps acc (h : gmap loc obj),
    h !! volumes_at = Some (ONums vols) →
    h !! cumulative_at = Some (ONums acc) →
    (i ≤ length vols)%nat → (length vols - i < fuel)%nat →
    for_vol fuel volumes_at cumulative_at i cumsum steps h
    = Done ((foldl Qcplus cumsum (drop i vols),
             (steps + (length vols - i))%nat),
            <[cumulative_at :=
                ONums (acc ++ prefix_sums cumsum (drop i vols))]> h).
Proof.
  intros Hne.
  induction fuel as [|fuel IH]; intros i cumsum steps acc h Hv Hc Hi Hfuel;
    [lia|].
  cbn [for_vol]. unfold mbind at 1, prog_bind, read_nums. rewrite Hv.
  destruct (vols !! i) as [vol|] eqn:Hvi.
  - unfold mbind, prog_bind, append. rewrite Hc.
    pose proof (lookup_lt_Some _ _ _ Hvi) as Hlt.
    rewrite (IH (S i) (cumsum + vol) (S steps) (acc ++ [cumsum + vol])).
    + rewrite insert_insert_eq, (drop_S _ _ _ Hvi). simpl.
      rewrite <- app_assoc. simpl.
      do 3 f_equal. lia.
    + by rewrite lookup_insert_ne.
    + by rewrite lookup_insert_eq.
    + lia.
    + lia.
  - apply lookup_ge_None in Hvi.
    rewrite drop_ge by done. simpl.
    rewrite app_nil_r, (insert_id _ _ _ Hc).
    unfold mret, prog_ret. do 3 f_equal. lia.
Qed.

Lemma fresh_not_in_heap (h : gmap loc obj) l :
  l ∈ dom h → l ≠ fresh (dom h).
Proof. intros Hin ->. by apply (is_fresh (dom h)). Qed.

Lemma dom_insert_old (h : gmap loc obj) k o l :
  l ∈ dom h → l ∈ dom (<[k := o]> h).
Proof.
  rewrite !elem_of_dom. intros Hl.
  destruct (decide (k = l)) as [->|Hne].
  - rewrite lookup_insert_eq. eauto.
  - by rewrite lookup_insert_ne.
Qed.

Lemma dom_insert_new (h : gmap loc obj) k o : k ∈ dom (<[k := o]> h).
Proof. rewrite elem_of_dom, lookup_insert_eq. eauto. Qed.

(** An object that exists is not affected by a new one. *)
Lemma lookup_new_old (h : gmap loc obj) o l :
  l ∈ dom h → <[fresh (dom h) := o]> h !! l = h !! l.
Proof.
  intros Hl. apply lookup_insert_ne. symmetry. by apply fresh_not_in_heap.
Qed.

(** One side: the two lists built hold the prices and the cumulative
    volumes of the levels, the loop body ran once per level, and every
    object that existed before is as it was. *)
Lemma side_curve_spec fuel levels_at ls (h : gmap loc obj) :
  h !! levels_at = Some (OLevels ls) → (length ls < fuel)%nat →
  ∃ xs ys h',
    side_curve fuel levels_at h = Done ((xs, ys, length ls), h')
    ∧ h' !! xs = Some (ONums (prices ls))
    ∧ h' !! ys = Some (ONums (cumulative (volumes ls)))
    ∧ (∀ l, l ∈ dom h → h' !! l = h !! l).
Proof.
  intros Hls Hfuel.
  assert (levels_at ∈ dom h) as Hin by (apply elem_of_dom; eauto).
  pose (l1 := fresh (dom h)).
  pose (h1 := <[l1 := ONums (prices ls)]> h).
  pose (l2 := fresh (dom h1)).
  pose (h2 := <[l2 := ONums (volumes ls)]> h1).
  pose (l3 := fresh (dom h2)).
  pose (h3 := <[l3 := ONums []]> h2).
  assert (l1 ∈ dom h1) as Hin1 by apply dom_insert_new.
  assert (l2 ∈ dom h2) as Hin2 by apply dom_insert_new.
  assert (l1 ∈ dom h2) as Hin12 by by apply dom_insert_old.
  assert (h1 !! l1 = Some (ONums (prices ls))) as Hp1
    by apply lookup_insert_eq.
  assert (h2 !! l1 = Some (ONums (prices ls))) as Hp2.
  { unfold h2, l2. by rewrite lookup_new_old. }
  assert (h3 !! l1 = Some (ONums (prices ls))) as Hp3.
  { unfold h3, l3. by rewrite lookup_new_old. }
  assert (h2 !! l2 = Some (ONums (volumes ls))) as Hv2
    by apply lookup_insert_eq.
  assert (h3 !! l2 = Some (ONums (volumes ls))) as Hv3.
  { unfold h3, l3. by rewrite lookup_new_old. }
  assert (h3 !! l3 = Some (ONums [])) as Hc3 by apply lookup_insert_eq.
  assert (l2 ≠ l3) as Hne23 by by apply fresh_not_in_heap.
  assert (l1 ≠ l3) as Hne13 by by apply fresh_not_in_heap.
  assert (∀ l, l ∈ dom h → h3 !! l = h !! l ∧ l ≠ l3) as Hframe.
  { intros l Hl.
    assert (l ∈ dom h1) as Hl1 by by apply dom_insert_old.
    assert (l ∈ dom h2) as Hl2 by by apply dom_insert_old.
    split; [|by apply fresh_not_in_heap].
    unfold h3, l3. rewrite lookup_new_old by done.
    unfold h2, l2. rewrite lookup_new_old by done.
    unfold h1, l1. by rewrite lookup_new_old. }
  exists l1, l3, (<[l3 := ONums (prefix_sums 0 (volumes ls))]> h3).
  split; [|split; [|split]].
  - unfold side_curve, mbind, prog_bind, read_levels, new.
    rewrite Hls. fold l1 h1.
    replace (h1 !! levels_at) with (Some (OLevels ls)).
    2: { symmetry. unfold h1, l1. by rewrite lookup_new_old. }
    fold l2 h2. fold l3 h3.
    rewrite (for_vol_spec _ l2 l3 (volumes ls) Hne23 0%nat 0 0%nat [] h3 Hv3 Hc3)
      by (rewrite ?length_volumes; lia).
    rewrite drop_0, length_volumes, Nat.sub_0_r. done.
  - by rewrite lookup_insert_ne.
  - by rewrite lookup_insert_eq, cumulative_prefix_sums.
  - intros l Hl. destruct (Hframe l Hl) as [Heq Hne].
    by rewrite lookup_insert_ne.
Qed.

Lemma curve_at_lookup (h : gmap loc obj) xs ys x y :
  h !! xs = Some (ONums x) → h !! ys = Some (ONums y) →
  curve_at h xs ys = Some (zip x y).
Proof. intros Hx Hy. unfold curve_at. by rewrite Hx, Hy. Qed.

Lemma curve_at_frame (h h' : gmap loc obj) xs ys curve :
  (∀ l, l ∈ dom h → h' !! l = h !! l) →
  curve_at h xs ys = Some curve → curve_at h' xs ys = Some curve.
Proof.
  intros Hframe. unfold curve_at.
  destruct (h !! xs) as [[x|]|] eqn:Hx; try done.
  destruct (h !! ys) as [[y|]|] eqn:Hy; try done.
  intros Hcurve.
  rewrite (Hframe xs), (Hframe ys), Hx, Hy; [done|apply elem_of_dom; eauto..].
Qed.

(** The whole run, for a snapshot whose two lists are objects of the
    heap. *)
Lemma depth_and_statistics_spec fuel bids_at asks_at bid_levels ask_levels
    (h : gmap loc obj) :
  h !! bids_at = Some (OLevels bid_levels) →
  h !! asks_at = Some (OLevels ask_levels) →
  (length bid_levels < fuel)%nat → (length ask_levels < fuel)%nat →
  ∃ r h',
    depth_and_statistics fuel bids_at asks_at h = Done (r, h')
    ∧ steps r = (length bid_levels + length ask_levels)%nat
    ∧ curve_at h' (bid_prices r) (bid_cumulative r)
      = Some (depth_curve bid_levels)
    ∧ curve_at h' (ask_prices r) (ask_cumulative r)
      = Some (depth_curve ask_levels)
    ∧ book_statistics bid_levels ask_levels = Ok (stats r)
    ∧ (∀ l, l ∈ dom h → h' !! l = h !! l).
Proof.
  intros Hbids Hasks Hfuel_b Hfuel_a.
  assert (bids_at ∈ dom h) as Hin_b by (apply elem_of_dom; eauto).
  assert (asks_at ∈ dom h) as Hin_a by (apply elem_of_dom; eauto).
  destruct (side_curve_spec fuel bids_at bid_levels h Hbids Hfuel_b)
    as (bx & by_ & h1 & Hrun1 & Hbx & Hby & Hframe1).
  assert (h1 !! bids_at = Some (OLevels bid_levels)) as Hbids1
    by by rewrite Hframe1.
  assert (h1 !! asks_at = Some (OLevels ask_levels)) as Hasks1
    by by rewrite Hframe1.
  destruct (side_curve_spec fuel asks_at ask_levels h1 Hasks1 Hfuel_a)
    as (ax & ay & h2 & Hrun2 & Hax & Hay & Hframe2).
  assert (h2 !! bids_at = Some (OLevels bid_levels)) as Hbids2.
  { rewrite Hframe2; [done|]. apply elem_of_dom; eauto. }
  assert (h2 !! asks_at = Some (OLevels ask_levels)) as Hasks2.
  { rewrite Hframe2; [done|]. apply elem_of_dom; eauto. }
  rewrite book_statistics_ok.
  eexists _, h2. split; [|split; [|split; [|split; [|split]]]].
  - unfold depth_and_statistics, mbind, prog_bind.
    rewrite Hrun1, Hrun2. unfold read_levels. rewrite Hbids2, Hasks2.
    rewrite book_statistics_ok. reflexivity.
  - done.
  - simpl. apply (curve_at_frame h1); [done|].
    by apply curve_at_lookup.
  - simpl. by apply curve_at_lookup.
  - done.
  - intros l Hl. rewrite Hframe2, Hframe1; [done..|].
    apply elem_of_dom. rewrite Hframe1 by done. by apply elem_of_dom.
Qed.

(** C6.  The computation is deterministic and leaves its input alone: on a
    heap that holds the snapshot's two lists, a run returns curves and
    statistics that are functions of the levels only, every object that
    existed before the run (the snapshot's lists among them) is unchanged
    after it, and a second run, started after the first, returns the same
    curves and the same statistics. *)
Theorem depth_and_statistics_deterministic
    (h : gmap loc obj) (bids_at asks_at : loc)
    (bid_levels ask_levels : list level) (fuel : nat) :
  h !! bids_at = Some (OLevels bid_levels) →
  h !! asks_at = Some (OLevels ask_levels) →
  (length bid_levels < fuel)%nat → (length ask_levels < fuel)%nat →
  ∃ r1 h1 r2 h2,
    depth_and_statistics fuel bids_at asks_at h = Done (r1, h1)
    ∧ depth_and_statistics fuel bids_at asks_at h1 = Done (r2, h2)
    ∧ (∀ l, l ∈ dom h → h1 !! l = h !! l ∧ h2 !! l = h !! l)
    ∧ h2 !! bids_at = Some (OLevels bid_levels)
    ∧ h2 !! asks_at = Some (OLevels ask_levels)
    ∧ curve_at h1 (bid_prices r1) (bid_cumulative r1)
      = Some (depth_curve bid_levels)
    ∧ curve_at h2 (bid_prices r2) (bid_cumulative r2)
      = Some (depth_curve bid_levels)
    ∧ curve_at h1 (ask_prices r1) (ask_cumulative r1)
      = Some (depth_curve ask_levels)
    ∧ curve_at h2 (ask_prices r2) (ask_cumulative r2)
      = Some (depth_curve ask_levels)
    ∧ stats r1 = stats r2
    ∧ book_statistics bid_levels ask_levels = Ok (stats r1).
Proof.
  intros Hbids Hasks Hfuel_b Hfuel_a.
  destruct (depth_and_statistics_spec fuel bids_at asks_at _ _ h
              Hbids Hasks Hfuel_b Hfuel_a)
    as (r1 & h1 & Hrun1 & _ & Hbc1 & Hac1 & Hst1 & Hframe1).
  assert (∀ l, l ∈ dom h → l ∈ dom h1) as Hdom.
  { intros l Hl. apply elem_of_dom. rewrite Hframe1 by done.
    by apply elem_of_dom. }
  assert (bids_at ∈ dom h) as Hin_b by (apply elem_of_dom; eauto).
  assert (asks_at ∈ dom h) as Hin_a by (apply elem_of_dom; eauto).
  assert (h1 !! bids_at = Some (OLevels bid_levels)) as Hbids1
    by by rewrite Hframe1.
  assert (h1 !! asks_at = Some (OLevels ask_levels)) as Hasks1
    by by rewrite Hframe1.
  destruct (depth_and_statistics_spec fuel bids_at asks_at _ _ h1
              Hbids1 Hasks1 Hfuel_b Hfuel_a)
    as (r2 & h2 & Hrun2 & _ & Hbc2 & Hac2 & Hst2 & Hframe2).
  exists r1, h1, r2, h2.
  assert (∀ l, l ∈ dom h → h1 !! l = h !! l ∧ h2 !! l = h !! l) as Hframe.
  { intros l Hl. split; [by apply Hframe1|].
    rewrite Hframe2 by by apply Hdom. by apply Hframe1. }
  repeat split; try done.
  - by apply Hframe.
  - by apply Hframe.
  - by rewrite (proj2 (Hframe _ Hin_b)).
  - by rewrite (proj2 (Hframe _ Hin_a)).
  - congruence.
Qed.

Lemma depth_and_statistics_deterministic_witness :
  (example_heap !! 1%positive = Some (OLevels example_bids)
   ∧ example_heap !! 2%positive = Some (OLevels example_asks)
   ∧ (length example_bids < 3)%nat ∧ (length example_asks < 3)%nat)
  ∧ ∃ r1 h1 r2 h2,
      depth_and_statistics 3 1%positive 2%positive example_heap = Done (r1, h1)
      ∧ depth_and_statistics 3 1%positive 2%positive h1 = Done (r2, h2)
      ∧ h2 !! 1%positive = Some (OLevels example_bids)
      ∧ h2 !! 2%positive = Some (OLevels example_asks)
      ∧ stats r1 = stats r2.
Proof.
  assert (example_heap !! 1%positive = Some (OLevels example_bids)) as Hbids
    by reflexivity.
  assert (example_heap !! 2%positive = Some (OLevels example_asks)) as Hasks
    by reflexivity.
  assert (length example_bids < 3)%nat as Hfuel_b by (simpl; lia).
  assert (length example_asks < 3)%nat as Hfuel_a by (simpl; lia).
  split; [by repeat split|].
  destruct (depth_and_statistics_deterministic
              example_heap 1%positive 2%positive example_bids example_asks 3
              Hbids Hasks Hfuel_b Hfuel_a)
    as (r1 & h1 & r2 & h2 & Hrun1 & Hrun2 & _ & Hb2 & Ha2 & _ & _ & _ & _
        & Hstats & _).
  exists r1, h1, r2, h2. by repeat split.
Defined.

(** C7.  The computation terminates on every snapshot: a bound on the
    iterations of each loop above the number of levels of its side is
    never reached, and the run ends with the loop body executed once per
    level, [length bids + length asks] times in all.  The loop as a
    function of the list of volumes is total and returns one cumulative
    value per level. *)
Theorem depth_and_statistics_terminates
    (h : gmap loc obj) (bids_at asks_at : loc)
    (bid_levels ask_levels : list level) (fuel : nat) :
  h !! bids_at = Some (OLevels bid_levels) →
  h !! asks_at = Some (OLevels ask_levels) →
  (length bid_levels < fuel)%nat → (length ask_levels < fuel)%nat →
  (∃ r h',
     depth_and_statistics fuel bids_at asks_at h = Done (r, h')
     ∧ steps r = (length bid_levels + length ask_levels)%nat)
  ∧ length (cumulative (volumes bid_levels)) = length bid_levels
  ∧ length (cumulative (volumes ask_levels)) = length ask_levels.
Proof.
  intros Hbids Hasks Hfuel_b Hfuel_a. split.
  - destruct (depth_and_statistics_spec fuel bids_at asks_at _ _ h
                Hbids Hasks Hfuel_b Hfuel_a)
      as (r & h' & Hrun & Hsteps & _).
    by exists r, h'.
  - by rewrite !length_cumulative, !length_volumes.
Qed.

Lemma depth_and_statistics_terminates_witness :
  (example_heap !! 1%positive = Some (OLevels example_bids)
   ∧ example_heap !! 2%positive = Some (OLevels example_asks)
   ∧ (length example_bids < 3)%nat ∧ (length example_asks < 3)%nat)
  ∧ ∃ r h',
      depth_and_statistics 3 1%positive 2%positive example_heap = Done (r, h')
      ∧ steps r = 4%nat.
Proof.
  assert (example_heap !! 1%positive = Some (OLevels example_bids)) as Hbids
    by reflexivity.
  assert (example_heap !! 2%positive = Some (OLevels example_asks)) as Hasks
    by reflexivity.
  assert (length example_bids < 3)%nat as Hfuel_b by (simpl; lia).
  assert (length example_asks < 3)%nat as Hfuel_a by (simpl; lia).
  split; [by repeat split|].
  destruct (depth_and_statistics_terminates
              example_heap 1%positive 2%positive example_bids example_asks 3
              Hbids Hasks Hfuel_b Hfuel_a)
    as ((r & h' & Hrun & Hsteps) & _).
  exists r, h'. split; [exact Hrun|exact Hsteps].
Defined.

(** * Further properties of the chart functions *)

(** ** [create_orderbook_depth_chart] on dictionaries *)

Lemma add_depth_traces_shapes (fig : figure) (bids asks : list level) :
  ∃ fig',
    add_depth_traces fig bids asks = Ok fig'
    ∧ traces fig'
      = traces fig
        ++ [Scatter (prices bids) (cumulative (volumes bids))
              "Bid Depth" "" "tozeroy" "green";
            Scatter (prices asks) (cumulative (volumes asks))
              "Ask Depth" "" "tozeroy" "red"]
    ∧ shapes fig'
      = shapes fig ++ best_markers "green" bids ++ best_markers "red" asks
    ∧ annotations fig'
      = annotations fig
        ++ best_labels "Best Bid" bids ++ best_labels "Best Ask" asks
    ∧ title fig' = title fig.
Proof.
  unfold add_depth_traces.
  destruct bids as [|[bp bv] bids], asks as [|[ap av] asks];
    (eexists; split; [reflexivity|]); simpl;
    rewrite ?app_nil_r, <- ?app_assoc; done.
Qed.

Lemma truthy_dict (d : gmap string field) : d ≠ ∅ → truthy (PyDict d) = true.
Proof. intros Hne. simpl. by apply bool_decide_eq_true_2. Qed.

(** X1.  For a dictionary that holds a symbol and the two lists of levels,
    whatever the lists are (empty sides included), the call constructs one
    figure, writes it to [output_file], prints its confirmation and returns
    [output_file].  The figure written plots the two depth curves, marks
    the first level of each non-empty side, and carries the symbol, the
    spread and the ratio of the book in its title. *)
Theorem depth_chart_written
    (d : gmap string field) (sym : string) (bids asks : list level)
    (output_file : string) :
  d !! "symbol" = Some (FStr sym) →
  d !! "bids" = Some (FLevels bids) →
  d !! "asks" = Some (FLevels asks) →
  ∃ fig st msg,
    create_orderbook_depth_chart (PyDict d) output_file
    = ([NewFigure; WriteHtml output_file fig; Print msg],
       Ok (Some output_file))
    ∧ book_statistics bids asks = Ok st
    ∧ title fig = Some (ChartTitle sym (spread st) (imbalance st))
    ∧ ((λ tr, (sc_name tr, zip (sc_x tr) (sc_y tr))) <$> traces fig)
      = [("Bid Depth", depth_curve bids); ("Ask Depth", depth_curve asks)]
    ∧ shapes fig = best_markers "green" bids ++ best_markers "red" asks
    ∧ annotations fig
      = best_labels "Best Bid" bids ++ best_labels "Best Ask" asks.
Proof.
  intros Hsym Hbids Hasks.
  destruct (add_depth_traces_shapes go_Figure bids asks)
    as (fig & Hfig & Htraces & Hshapes & Hlabels & Htitle).
  unfold create_orderbook_depth_chart.
  rewrite truthy_dict by (intros ->; by rewrite lookup_empty in Hsym).
  unfold subscript. rewrite Hsym, Hbids, Hasks. simpl.
  rewrite Hfig, book_statistics_ok. simpl.
  eexists _, _, _. split; [reflexivity|]. split; [reflexivity|]. simpl.
  rewrite Htraces, Hshapes, Hlabels. done.
Qed.

Lemma depth_chart_written_witness :
  (example_book !! "symbol" = Some (FStr "BTCUSDT")
   ∧ example_book !! "bids" = Some (FLevels example_bids)
   ∧ example_book !! "asks" = Some (FLevels example_asks))
  ∧ ∃ fig msg,
      create_orderbook_depth_chart (PyDict example_book) "orderbook_depth.html"
      = ([NewFigure; WriteHtml "orderbook_depth.html" fig; Print msg],
         Ok (Some "orderbook_depth.html"))
      ∧ title fig = Some (ChartTitle "BTCUSDT" (q 1) (q 1)).
Proof.
  assert (example_book !! "symbol" = Some (FStr "BTCUSDT")) as Hsym
    by reflexivity.
  assert (example_book !! "bids" = Some (FLevels example_bids)) as Hbids
    by reflexivity.
  assert (example_book !! "asks" = Some (FLevels example_asks)) as Hasks
    by reflexivity.
  split; [by repeat split|].
  destruct (depth_chart_written example_book "BTCUSDT" example_bids
              example_asks "orderbook_depth.html" Hsym Hbids Hasks)
    as (fig & st & msg & Hrun & Hst & Htitle & _).
  exists fig, msg. split; [exact Hrun|].
  rewrite Htitle.
  assert (st = Statistics (q 5) (q 5) (q 1) (q 1)) as ->; [|reflexivity].
  assert (book_statistics example_bids example_asks
          = Ok (Statistics (q 5) (q 5) (q 1) (q 1))) as Hval by by_eval.
  congruence.
Defined.

(** X2.  A non-empty dictionary that lacks a key ends the call with the
    [KeyError] of the first key missing, in the order [bids], [asks],
    [symbol].  Without [bids] or [asks] nothing at all has happened; without
    [symbol] the figure has been constructed, but it is not written and no
    confirmation is printed. *)
Theorem depth_chart_missing_key
    (d : gmap string field) (bids asks : list level) (output_file : string) :
  d ≠ ∅ →
  (d !! "bids" = None →
   create_orderbook_depth_chart (PyDict d) output_file
   = ([], Raise (KeyError "bids")))
  ∧ (d !! "bids" = Some (FLevels bids) → d !! "asks" = None →
     create_orderbook_depth_chart (PyDict d) output_file
     = ([], Raise (KeyError "asks")))
  ∧ (d !! "bids" = Some (FLevels bids) → d !! "asks" = Some (FLevels asks) →
     d !! "symbol" = None →
     create_orderbook_depth_chart (PyDict d) output_file
     = ([NewFigure], Raise (KeyError "symbol"))).
Proof.
  intros Hne. unfold create_orderbook_depth_chart.
  rewrite (truthy_dict _ Hne). unfold subscript.
  split; [|split].
  - by intros ->.
  - by intros -> ->.
  - intros -> -> ->. simpl.
    destruct (add_depth_traces_shapes go_Figure bids asks) as (fig & -> & _).
    rewrite book_statistics_ok. done.
Qed.

Lemma depth_chart_missing_key_witness :
  ({["bids" := FLevels example_bids]} : gmap string field) ≠ ∅
  ∧ create_orderbook_depth_chart
      (PyDict {["bids" := FLevels example_bids]}) "orderbook_depth.html"
    = ([], Raise (KeyError "asks")).
Proof.
  assert (({["bids" := FLevels example_bids]} : gmap string field) ≠ ∅)
    as Hne by (intros Heq; discriminate (f_equal (λ m, m !! "bids") Heq)).
  split; [exact Hne|].
  destruct (depth_chart_missing_key {["bids" := FLevels example_bids]}
              example_bids [] "orderbook_depth.html" Hne) as (_ & Hasks & _).
  apply Hasks; reflexivity.
Defined.

(** The ways a call can go, for the order books of [well_typed]: the
    warning for a falsy value, a [TypeError] for any other value that is
    no dictionary, the [KeyError] of the first missing key, or the chart
    written. *)
Lemma depth_chart_outcomes (orderbook_data : pyval) (output_file : string) :
  well_typed orderbook_data = true →
  (truthy orderbook_data = false
   ∧ create_orderbook_depth_chart orderbook_data output_file
     = ([Print "⚠ No order book data available"], Ok None))
  ∨ (truthy orderbook_data = true
     ∧ is_dict orderbook_data = false
     ∧ create_orderbook_depth_chart orderbook_data output_file
       = ([], Raise TypeError))
  ∨ (truthy orderbook_data = true
     ∧ ∃ d key evs,
         orderbook_data = PyDict d
         ∧ first_missing_key d = Some key
         ∧ (evs = [] ∨ evs = [NewFigure])
         ∧ create_orderbook_depth_chart orderbook_data output_file
           = (evs, Raise (KeyError key)))
  ∨ (truthy orderbook_data = true
     ∧ ∃ d fig msg,
         orderbook_data = PyDict d
         ∧ first_missing_key d = None
         ∧ create_orderbook_depth_chart orderbook_data output_file
           = ([NewFigure; WriteHtml output_file fig; Print msg],
              Ok (Some output_file))).
Proof.
  intros Htyped. unfold create_orderbook_depth_chart.
  destruct (truthy orderbook_data) eqn:Htruthy; [right|left; by split].
  destruct orderbook_data as [| | | | |d];
    try (left; split; [done|]; split; reflexivity).
  right.
  unfold well_typed, holds_levels, holds_text in Htyped.
  unfold subscript.
  destruct (d !! "bids") as [[?|bids]|] eqn:Hbids; [by cbn in Htyped| |].
  2:{ left. split; [done|]. exists d, "bids", [].
      unfold first_missing_key. rewrite Hbids.
      split; [done|]. split; [done|]. split; [by left|]. reflexivity. }
  destruct (d !! "asks") as [[?|asks]|] eqn:Hasks; [by cbn in Htyped| |].
  2:{ left. split; [done|]. exists d, "asks", [].
      unfold first_missing_key. rewrite Hbids, Hasks.
      split; [done|]. split; [done|]. split; [by left|]. reflexivity. }
  destruct (add_depth_traces_shapes go_Figure bids asks) as (fig & Hfig & _).
  destruct (d !! "symbol") as [[sym|?]|] eqn:Hsym; [|by cbn in Htyped|].
  - right. split; [done|]. eexists d, _, _.
    unfold first_missing_key. rewrite Hbids, Hasks, Hsym.
    split; [done|]. split; [done|].
    cbn. rewrite Hfig, book_statistics_ok. reflexivity.
  - left. split; [done|]. exists d, "symbol", [NewFigure].
    unfold first_missing_key. rewrite Hbids, Hasks, Hsym.
    split; [done|]. split; [done|]. split; [by right|].
    cbn. rewrite Hfig, book_statistics_ok. reflexivity.
Qed.

(** X3.  For every order book of [well_typed] (every value that is no
    dictionary, and the dictionaries whose sides are lists of levels and
    whose symbol is text), a file is written only by a call that returns:
    if the call writes a file, the file is [output_file] and the call
    returns [output_file]; a call that ends with an exception has written
    nothing.  The call returns [None] exactly for the falsy values, and
    never anything but [None] or [output_file].  It ends with an exception
    exactly for the truthy values that are no dictionary (a [TypeError])
    and for the dictionaries that lack a key (the [KeyError] of the first
    missing key). *)
Theorem depth_chart_writes_only_on_success
    (orderbook_data : pyval) (output_file : string) :
  well_typed orderbook_data = true →
  let run := create_orderbook_depth_chart orderbook_data output_file in
  (∀ file fig, WriteHtml file fig ∈ run.1 →
     file = output_file ∧ run.2 = Ok (Some output_file))
  ∧ (∀ e file fig, run.2 = Raise e → WriteHtml file fig ∉ run.1)
  ∧ (run.2 = Ok None ↔ truthy orderbook_data = false)
  ∧ (∀ ret, run.2 = Ok ret → ret = None ∨ ret = Some output_file)
  ∧ (∀ e, run.2 = Raise e
          ↔ truthy orderbook_data = true
            ∧ ((is_dict orderbook_data = false ∧ e = TypeError)
               ∨ (∃ d key,
                    orderbook_data = PyDict d
                    ∧ first_missing_key d = Some key
                    ∧ e = KeyError key))).
Proof.
  intros Htyped run. subst run.
  destruct (depth_chart_outcomes orderbook_data output_file Htyped)
    as [[Hfalsy ->]
       |[(Htruthy & Hnodict & ->)
        |[(Htruthy & d & key & evs & -> & Hkey & Hevs & ->)
         |(Htruthy & d & fig & msg & -> & Hkey & ->)]]]; simpl in *.
  - split; [intros file fig Hin; events_cases; discriminate|].
    split; [intros e file fig He; discriminate|].
    split; [done|]. split; [intros ret [= <-]; by left|].
    intros e. split; [discriminate|]. intros [Htruthy _]. congruence.
  - split; [intros file fig Hin; events_cases|].
    split; [intros e' file fig He Hin; events_cases|].
    split; [split; congruence|]. split; [intros ret; discriminate|].
    intros e. split.
    + intros [= <-]. split; [done|]. by left.
    + intros [_ [[_ ->]|(d & key & -> & _)]]; [done|discriminate].
  - split.
    { intros file fig Hin.
      destruct Hevs as [->| ->]; events_cases; discriminate. }
    split.
    { intros e' file fig He Hin.
      destruct Hevs as [->| ->]; events_cases; discriminate. }
    split; [split; congruence|]. split; [intros ret; discriminate|].
    intros e. split.
    + intros [= <-]. split; [done|]. right. by exists d, key.
    + intros [_ [[Hnodict _]|(d' & key' & [= <-] & Hkey' & ->)]];
        [discriminate|]. congruence.
  - split.
    { intros file fig' Hin; events_cases; try discriminate.
      injection Hin as -> _. done. }
    split; [intros e' file fig' He; discriminate|].
    split; [split; congruence|]. split; [intros ret [= <-]; by right|].
    intros e. split; [discriminate|].
    intros [_ [[Hnodict _]|(d' & key' & [= <-] & Hkey' & _)]];
      [discriminate|congruence].
Qed.

Lemma depth_chart_writes_only_on_success_witness :
  well_typed (PyDict example_book) = true
  ∧ well_typed (PyDict bids_only_dict) = true
  ∧ (∃ fig,
       WriteHtml "depth.html" fig
         ∈ (create_orderbook_depth_chart (PyDict example_book) "depth.html").1
       ∧ (create_orderbook_depth_chart (PyDict example_book) "depth.html").2
         = Ok (Some "depth.html"))
  ∧ (create_orderbook_depth_chart (PyDict bids_only_dict) "depth.html").2
    = Raise (KeyError "asks").
Proof.
  assert (well_typed (PyDict example_book) = true) as Htyped by reflexivity.
  assert (well_typed (PyDict bids_only_dict) = true) as Htyped'
    by reflexivity.
  split; [exact Htyped|]. split; [exact Htyped'|]. split.
  - destruct (create_orderbook_depth_chart_ok example_book "BTCUSDT"
                example_bids example_asks "depth.html"
                eq_refl eq_refl eq_refl)
      as (fig & msg & Hrun & _).
    exists fig.
    assert (WriteHtml "depth.html" fig
              ∈ (create_orderbook_depth_chart (PyDict example_book)
                   "depth.html").1) as Hin
      by (rewrite Hrun; right; left).
    split; [exact Hin|].
    destruct (depth_chart_writes_only_on_success (PyDict example_book)
                "depth.html" Htyped) as (Hwrite & _).
    exact (proj2 (Hwrite _ _ Hin)).
  - destruct (depth_chart_writes_only_on_success (PyDict bids_only_dict)
                "depth.html" Htyped') as (_ & _ & _ & _ & Hraise).
    apply Hraise. split; [reflexivity|]. right.
    exists bids_only_dict, "asks". by repeat split.
Defined.

(** ** The bottom panel of [create_combined_chart] *)

(** X4.  For a dictionary with the three keys, the bottom panel of the
    combined chart shows what the stand-alone depth chart shows: the panel
    adds, after what the figure already holds, the traces, the markers and
    the labels of the chart written by [create_orderbook_depth_chart], and
    its statistics box carries the symbol, spread and ratio that the depth
    chart has in its title.  The title of the figure is left alone. *)
Theorem combined_panel_agrees_with_depth_chart
    (d : gmap string field) (sym : string) (bids asks : list level)
    (fig : figure) (output_file : string) :
  d !! "symbol" = Some (FStr sym) →
  d !! "bids" = Some (FLevels bids) →
  d !! "asks" = Some (FLevels asks) →
  ∃ panel chart stats_text msg,
    combined_orderbook_panel fig (PyDict d) = Ok panel
    ∧ create_orderbook_depth_chart (PyDict d) output_file
      = ([NewFigure; WriteHtml output_file chart; Print msg],
         Ok (Some output_file))
    ∧ traces panel = traces fig ++ traces chart
    ∧ shapes panel = shapes fig ++ shapes chart
    ∧ annotations panel
      = annotations fig ++ annotations chart
        ++ [Annotation (q 1 / q 2) (Some (q 28 / q 100))
              (StatsText stats_text)]
    ∧ title chart = Some stats_text
    ∧ title panel = title fig.
Proof.
  intros Hsym Hbids Hasks.
  assert (d ≠ ∅) as Hne by (intros ->; by rewrite lookup_empty in Hsym).
  destruct (add_depth_traces_shapes fig bids asks)
    as (panel & Hpanel & Htr & Hsh & Han & Hti).
  destruct (add_depth_traces_shapes go_Figure bids asks)
    as (chart & Hchart & Htr0 & Hsh0 & Han0 & Hti0).
  simpl in Htr0, Hsh0, Han0.
  unfold combined_orderbook_panel, create_orderbook_depth_chart.
  rewrite (truthy_dict _ Hne). unfold subscript.
  rewrite Hsym, Hbids, Hasks. cbn.
  rewrite Hpanel, Hchart, book_statistics_ok. cbn.
  eexists _, _, _, _. split; [reflexivity|]. split; [reflexivity|]. cbn.
  rewrite Htr, Hsh, Han, Hti, Htr0, Hsh0, Han0.
  by rewrite <- !app_assoc.
Qed.

Lemma combined_panel_agrees_with_depth_chart_witness :
  (example_book !! "symbol" = Some (FStr "BTCUSDT")
   ∧ example_book !! "bids" = Some (FLevels example_bids)
   ∧ example_book !! "asks" = Some (FLevels example_asks))
  ∧ ∃ panel chart msg,
      combined_orderbook_panel go_Figure (PyDict example_book) = Ok panel
      ∧ create_orderbook_depth_chart (PyDict example_book) "depth.html"
        = ([NewFigure; WriteHtml "depth.html" chart; Print msg],
           Ok (Some "depth.html"))
      ∧ traces panel = traces chart.
Proof.
  assert (example_book !! "symbol" = Some (FStr "BTCUSDT")) as Hsym
    by reflexivity.
  assert (example_book !! "bids" = Some (FLevels example_bids)) as Hbids
    by reflexivity.
  assert (example_book !! "asks" = Some (FLevels example_asks)) as Hasks
    by reflexivity.
  split; [by repeat split|].
  destruct (combined_panel_agrees_with_depth_chart example_book "BTCUSDT"
              example_bids example_asks go_Figure "depth.html"
              Hsym Hbids Hasks)
    as (panel & chart & t & msg & Hpanel & Hchart & Htraces & _).
  exists panel, chart, msg. split; [exact Hpanel|]. split; [exact Hchart|].
  exact Htraces.
Defined.

(** X5.  Whatever is passed for [orderbook_data], a bottom panel that is
    drawn keeps what the figure held: its traces, shapes and annotations
    are still there, in front of what the panel adds, and the title is
    unchanged.  A falsy [orderbook_data] adds nothing; a truthy one adds
    exactly two traces and the statistics box. *)
Theorem combined_panel_frame
    (fig fig' : figure) (orderbook_data : pyval) :
  combined_orderbook_panel fig orderbook_data = Ok fig' →
  traces fig `prefix_of` traces fig'
  ∧ shapes fig `prefix_of` shapes fig'
  ∧ annotations fig `prefix_of` annotations fig'
  ∧ title fig' = title fig
  ∧ (truthy orderbook_data = false → fig' = fig)
  ∧ (truthy orderbook_data = true →
     length (traces fig') = (length (traces fig) + 2)%nat
     ∧ ∃ stats_text,
         last (annotations fig')
         = Some (Annotation (q 1 / q 2) (Some (q 28 / q 100))
                   (StatsText stats_text))).
Proof.
  unfold combined_orderbook_panel.
  destruct (truthy orderbook_data) eqn:Htruthy.
  - destruct orderbook_data as [| | | | |d]; try discriminate.
    unfold subscript.
    destruct (d !! "bids") as [[?|bids]|]; try discriminate.
    destruct (d !! "asks") as [[?|asks]|]; try discriminate.
    destruct (add_depth_traces_shapes fig bids asks)
      as (panel & Hpanel & Htr & Hsh & Han & Hti).
    cbn. rewrite Hpanel, book_statistics_ok. cbn.
    destruct (d !! "symbol") as [[sym|?]|]; try discriminate.
    cbn. intros [= <-]. cbn. rewrite Htr, Hsh, Han, Hti.
    split; [by eexists|]. split; [by eexists|].
    split; [rewrite <- app_assoc; by eexists|]. split; [done|].
    split; [done|]. intros _. split.
    + rewrite length_app. simpl. lia.
    + eexists. by rewrite last_snoc.
  - intros [= <-]. by repeat split.
Qed.

Lemma combined_panel_frame_witness :
  ∃ fig',
    combined_orderbook_panel go_Figure (PyDict example_book) = Ok fig'
    ∧ length (traces fig') = 2%nat
    ∧ title fig' = None.
Proof.
  destruct (combined_orderbook_panel go_Figure (PyDict example_book))
    as [fig'|e] eqn:Hrun; [|vm_compute in Hrun; discriminate].
  exists fig'. split; [reflexivity|].
  destruct (combined_panel_frame go_Figure fig' (PyDict example_book) Hrun)
    as (_ & _ & _ & Htitle & _ & Htruthy).
  split; [|exact Htitle].
  apply Htruthy. reflexivity.
Defined.

(** ** [add_footprint_markers] beyond its guard *)

Lemma foldl_add_trap_zone (traps : list footprint_row) (fig : figure) :
  traces (foldl add_trap_zone fig traps) = traces fig
  ∧ title (foldl add_trap_zone fig traps) = title fig
  ∧ shapes (foldl add_trap_zone fig traps)
    = shapes fig
      ++ ((λ trap, Rect (datetime trap - q 15 / q 2)
                     (datetime trap + q 15 / q 2)
                     (low trap) (high trap) "rgba(255, 255, 0, 0.3)")
          <$> traps)
  ∧ annotations (foldl add_trap_zone fig traps)
    = annotations fig
      ++ ((λ trap, Annotation (datetime trap) (Some (high trap)) (Text "⚠"))
          <$> traps).
Proof.
  revert fig. induction traps as [|trap traps IH]; intros fig; simpl.
  - by rewrite !app_nil_r.
  - destruct (IH (add_trap_zone fig trap)) as (-> & -> & -> & ->).
    simpl. by rewrite <- !app_assoc.
Qed.

(** The marker trace of one kind of aggressive rows: none when there is no
    such row. *)
Lemma add_footprint_markers_spec
    (fig : figure) (footprint_df : option (list footprint_row)) :
  let rows := default [] footprint_df in
  let buys := filter (λ r, is_aggressive_buy r) rows in
  let sells := filter (λ r, is_aggressive_sell r) rows in
  let traps := filter (λ r, is_trap r) rows in
  let fig' := add_footprint_markers fig footprint_df in
  traces fig'
  = traces fig
    ++ (if decide (buys = []) then []
        else [Scatter (datetime <$> buys) (low <$> buys)
                "Aggressive Buy" "markers" "" "lime"])
    ++ (if decide (sells = []) then []
        else [Scatter (datetime <$> sells) (high <$> sells)
                "Aggressive Sell" "markers" "" "red"])
  ∧ title fig' = title fig
  ∧ shapes fig'
    = shapes fig
      ++ ((λ trap, Rect (datetime trap - q 15 / q 2)
                     (datetime trap + q 15 / q 2)
                     (low trap) (high trap) "rgba(255, 255, 0, 0.3)")
          <$> traps)
  ∧ annotations fig'
    = annotations fig
      ++ ((λ trap, Annotation (datetime trap) (Some (high trap)) (Text "⚠"))
          <$> traps).
Proof.
  destruct footprint_df as [[|row rows]|]; simpl;
    [by rewrite !app_nil_r..| |by rewrite !app_nil_r].
  set (all := row :: rows).
  change (add_footprint_markers fig (Some all)) with
    (foldl add_trap_zone
       (let fig1 :=
          if bool_decide
               (0 < length (filter (λ r, is_aggressive_buy r) all))%nat
          then add_trace fig
                 (Scatter (datetime <$> filter (λ r, is_aggressive_buy r) all)
                    (low <$> filter (λ r, is_aggressive_buy r) all)
                    "Aggressive Buy" "markers" "" "lime")
          else fig in
        if bool_decide
             (0 < length (filter (λ r, is_aggressive_sell r) all))%nat
        then add_trace fig1
               (Scatter (datetime <$> filter (λ r, is_aggressive_sell r) all)
                  (high <$> filter (λ r, is_aggressive_sell r) all)
                  "Aggressive Sell" "markers" "" "red")
        else fig1)
       (filter (λ r, is_trap r) all)).
  match goal with
  | |- context [foldl add_trap_zone ?f ?t] =>
      destruct (foldl_add_trap_zone t f) as (-> & -> & -> & ->)
  end.
  assert (∀ l : list footprint_row,
            bool_decide (0 < length l)%nat
            = if decide (l = []) then false else true) as Hlen.
  { intros [|? ?]; [done|]. rewrite decide_False by done.
    apply bool_decide_eq_true_2. simpl. lia. }
  rewrite !Hlen.
  destruct (decide (filter (λ r, is_aggressive_buy r) all = []));
    destruct (decide (filter (λ r, is_aggressive_sell r) all = []));
    simpl; rewrite ?app_nil_r, <- ?app_assoc; done.
Qed.

(** X6.  [add_footprint_markers] only adds to a figure.  What the figure
    held stays in front of what is added and the title is kept; at most two
    traces are added, and one rectangle and one label per trap row. *)
Theorem footprint_markers_frame
    (fig : figure) (footprint_df : option (list footprint_row)) :
  let rows := default [] footprint_df in
  let fig' := add_footprint_markers fig footprint_df in
  traces fig `prefix_of` traces fig'
  ∧ shapes fig `prefix_of` shapes fig'
  ∧ annotations fig `prefix_of` annotations fig'
  ∧ title fig' = title fig
  ∧ (length (traces fig') ≤ length (traces fig) + 2)%nat
  ∧ length (shapes fig')
    = (length (shapes fig) + length (filter (λ r, is_trap r) rows))%nat
  ∧ length (annotations fig')
    = (length (annotations fig) + length (filter (λ r, is_trap r) rows))%nat.
Proof.
  intros rows fig'.
  destruct (add_footprint_markers_spec fig footprint_df)
    as (Htr & Hti & Hsh & Han).
  fold rows fig' in Htr, Hti, Hsh, Han.
  rewrite Htr, Hsh, Han, Hti.
  split; [by eexists|]. split; [by eexists|]. split; [by eexists|].
  split; [done|]. split.
  - rewrite !length_app.
    destruct (decide (filter (λ r, is_aggressive_buy r) rows = []));
      destruct (decide (filter (λ r, is_aggressive_sell r) rows = []));
      simpl; lia.
  - by rewrite !length_app, !length_fmap.
Qed.

Lemma filter_nonempty_iff {A} (P : A → Prop) `{!∀ x, Decision (P x)}
    (l : list A) :
  filter P l ≠ [] ↔ ∃ x, x ∈ l ∧ P x.
Proof.
  split.
  - destruct (filter P l) as [|x k] eqn:Hf; [done|]. intros _.
    assert (x ∈ filter P l) as Hin by (rewrite Hf; by left).
    apply list_elem_of_filter in Hin as [HPx Hin]. eauto.
  - intros (x & Hin & HPx) Hnil.
    assert (x ∈ filter P l) as Hin' by by apply list_elem_of_filter.
    rewrite Hnil in Hin'. by apply elem_of_nil in Hin'.
Qed.

(** X7.  The marker traces.  A trace for the aggressive buys is added
    exactly when some row is an aggressive buy, and it plots these rows, in
    the order of the table, at their lows; likewise the aggressive sells at
    their highs.  No empty trace is ever added. *)
Theorem footprint_marker_traces
    (fig : figure) (footprint_df : option (list footprint_row)) :
  let rows := default [] footprint_df in
  let added :=
    drop (length (traces fig))
      (traces (add_footprint_markers fig footprint_df)) in
  (∀ tr, tr ∈ added →
     sc_mode tr = "markers" ∧ sc_x tr ≠ []
     ∧ (sc_name tr = "Aggressive Buy"
        ∧ zip (sc_x tr) (sc_y tr)
          = (λ r, (datetime r, low r))
            <$> filter (λ r, is_aggressive_buy r) rows
        ∨ sc_name tr = "Aggressive Sell"
          ∧ zip (sc_x tr) (sc_y tr)
            = (λ r, (datetime r, high r))
              <$> filter (λ r, is_aggressive_sell r) rows))
  ∧ ((∃ tr, tr ∈ added ∧ sc_name tr = "Aggressive Buy")
     ↔ ∃ r, r ∈ rows ∧ is_aggressive_buy r)
  ∧ ((∃ tr, tr ∈ added ∧ sc_name tr = "Aggressive Sell")
     ↔ ∃ r, r ∈ rows ∧ is_aggressive_sell r).
Proof.
  intros rows added.
  destruct (add_footprint_markers_spec fig footprint_df) as (Htr & _).
  fold rows in Htr. subst added. rewrite Htr, drop_app_length.
  assert (∀ (A B : Type) (f : footprint_row → A) (g : footprint_row → B)
            (l : list footprint_row),
            zip (f <$> l) (g <$> l) = (λ r, (f r, g r)) <$> l) as Hzip.
  { intros A B f g l. induction l as [|r l IH]; simpl; [done|].
    f_equal. exact IH. }
  pose proof (λ (P : footprint_row → Prop) (HP : ∀ r, Decision (P r)),
                filter_nonempty_iff P rows) as Hne.
  set (buys := filter (λ r, is_aggressive_buy r) rows) in *.
  set (sells := filter (λ r, is_aggressive_sell r) rows) in *.
  split; [|split].
  - intros tr Hin.
    destruct (decide (buys = [])) as [Hb|Hb], (decide (sells = [])) as [Hs|Hs];
      simpl in Hin; events_cases; subst tr; simpl;
      (split; [done|]); (split; [by destruct buys, sells|]);
      rewrite Hzip; auto.
  - rewrite <- (Hne (λ r, is_aggressive_buy r) _). fold buys. split.
    + intros (tr & Hin & Hname).
      destruct (decide (buys = [])) as [Hb|Hb]; [|done].
      destruct (decide (sells = [])) as [Hs|Hs];
        simpl in Hin; events_cases; subst tr; discriminate.
    + intros Hb. rewrite decide_False by done.
      eexists. split; [by left|done].
  - rewrite <- (Hne (λ r, is_aggressive_sell r) _). fold sells. split.
    + intros (tr & Hin & Hname).
      destruct (decide (sells = [])) as [Hs|Hs]; [|done].
      destruct (decide (buys = [])) as [Hb|Hb];
        simpl in Hin; events_cases; subst tr; discriminate.
    + intros Hs. rewrite (decide_False (P := sells = [])) by done.
      exists (Scatter (datetime <$> sells) (high <$> sells)
                "Aggressive Sell" "markers" "" "red").
      split; [|done]. apply elem_of_app. right. by left.
Qed.

Lemma Forall2_fmap_same {A B} (P : A → B → Prop) (f : A → B) (l : list A) :
  (∀ x, P x (f x)) → Forall2 P l (f <$> l).
Proof.
  intros HP. induction l as [|x l IH]; simpl; [constructor|].
  constructor; [apply HP|exact IH].
Qed.

Lemma quarter_hour_around (t : Qc) :
  (t - q 15 / q 2) + q 15 = t + q 15 / q 2
  ∧ (t - q 15 / q 2) + (t + q 15 / q 2) = t + t.
Proof.
  assert (q 15 = q 15 / q 2 + q 15 / q 2) as Hhalf by by_eval.
  split; [rewrite Hhalf at 2|]; ring.
Qed.

(** X8.  The trap zones.  For every trap row, in the order of the table,
    one rectangle is added that spans the candle's low to its high and a
    quarter of an hour centred on the candle's time, and one label at the
    candle's time and high. *)
Theorem footprint_trap_zones
    (fig : figure) (footprint_df : option (list footprint_row)) :
  let traps := filter (λ r, is_trap r) (default [] footprint_df) in
  let fig' := add_footprint_markers fig footprint_df in
  Forall2
    (λ trap sh,
       ∃ x0 x1 color,
         sh = Rect x0 x1 (low trap) (high trap) color
         ∧ x0 + q 15 = x1 ∧ x0 + x1 = datetime trap + datetime trap)
    traps (drop (length (shapes fig)) (shapes fig'))
  ∧ Forall2
      (λ trap an, an_x an = datetime trap ∧ an_y an = Some (high trap))
      traps (drop (length (annotations fig)) (annotations fig')).
Proof.
  intros traps fig'.
  destruct (add_footprint_markers_spec fig footprint_df)
    as (_ & _ & Hsh & Han).
  fold fig' traps in Hsh, Han. rewrite Hsh, Han, !drop_app_length.
  split.
  - apply Forall2_fmap_same. intros trap. eexists _, _, _.
    split; [reflexivity|]. apply quarter_hour_around.
  - by apply Forall2_fmap_same.
Qed.

(** ** [add_order_flow_profile] beyond its guards *)

Lemma add_bars_spec volume bar_start color max_vol profile_scale rows fig :
  max_vol ≠ 0 →
  add_bars volume bar_start color max_vol profile_scale fig rows
  = Ok (Figure
          (traces fig)
          (shapes fig
           ++ (profile_bar volume bar_start color max_vol profile_scale
               <$> filter (λ row, 0 < volume row) rows))
          (annotations fig) (title fig)).
Proof.
  intros Hmax. revert fig.
  induction rows as [|row rest IH]; intros fig.
  - simpl. rewrite app_nil_r. by destruct fig.
  - cbn [add_bars]. unfold add_bar at 1.
    destruct (decide (0 < volume row)) as [Hpos|Hnpos].
    + rewrite filter_cons_True, py_truediv_ok by done.
      cbn. rewrite IH. cbn. by rewrite <- app_assoc.
    + rewrite filter_cons_False by done. cbn. by rewrite IH.
Qed.

(** With a largest volume of [0] no row has a positive volume. *)
Lemma profile_max_vol_zero row rest :
  profile_max_vol row rest = 0 →
  filter (λ r, 0 < buy_volume r) (row :: rest) = []
  ∧ filter (λ r, 0 < sell_volume r) (row :: rest) = [].
Proof.
  intros Hzero.
  split.
  - destruct (decide (filter (λ r, 0 < buy_volume r) (row :: rest) = []))
      as [|Hne]; [done|].
    apply filter_nonempty_iff in Hne as (r & Hin & Hpos). exfalso.
    eapply Qclt_not_le; [exact Hpos|]. rewrite <- Hzero.
    by apply profile_max_vol_ge_buy.
  - destruct (decide (filter (λ r, 0 < sell_volume r) (row :: rest) = []))
      as [|Hne]; [done|].
    apply filter_nonempty_iff in Hne as (r & Hin & Hpos). exfalso.
    eapply Qclt_not_le; [exact Hpos|]. rewrite <- Hzero.
    by apply profile_max_vol_ge_sell.
Qed.

(** The figure returned, in all cases: the buy bars, then the sell bars,
    after the shapes the figure had. *)
Lemma add_order_flow_profile_spec
    (fig : figure) (profile_df : option (list profile_row))
    (current_time profile_scale offset : Qc) :
  let rows := profile_rows profile_df in
  let max_vol :=
    match rows with
    | [] => 0
    | row :: rest => profile_max_vol row rest
    end in
  let buy_start := current_time + offset * q 15 in
  let sell_start :=
    current_time + (offset * q 15 + (profile_scale + q 2) * q 15) in
  add_order_flow_profile fig profile_df current_time profile_scale offset
  = Ok (Figure
          (traces fig)
          (shapes fig
           ++ (profile_bar buy_volume buy_start "rgba(0, 255, 187, 0.7)"
                 max_vol profile_scale
               <$> filter (λ r, 0 < buy_volume r) rows)
           ++ (profile_bar sell_volume sell_start "rgba(255, 17, 0, 0.7)"
                 max_vol profile_scale
               <$> filter (λ r, 0 < sell_volume r) rows))
          (annotations fig) (title fig)).
Proof.
  unfold add_order_flow_profile, profile_rows. cbv zeta.
  destruct profile_df as [[|row rest]|]; cbn [default from_option id];
    try (cbn; rewrite app_nil_r; by destruct fig).
  destruct (decide (profile_max_vol row rest = 0)) as [Hzero|Hmax].
  - destruct (profile_max_vol_zero _ _ Hzero) as [-> ->].
    cbn. rewrite app_nil_r. by destruct fig.
  - rewrite add_bars_spec by done.
    unfold mbind, result_bind. cbv beta iota.
    rewrite add_bars_spec by done. cbn [traces shapes annotations title].
    by rewrite <- app_assoc.
Qed.

(** X9.  [add_order_flow_profile] only adds rectangles.  For every table
    the call returns a figure with the traces, annotations and title it was
    given, whose shapes start with the shapes it was given; it has added one
    bar per row with a positive buy volume and one per row with a positive
    sell volume. *)
Theorem order_flow_profile_frame
    (fig : figure) (profile_df : option (list profile_row))
    (current_time profile_scale offset : Qc) :
  let rows := profile_rows profile_df in
  ∃ fig',
    add_order_flow_profile fig profile_df current_time profile_scale offset
    = Ok fig'
    ∧ traces fig' = traces fig
    ∧ annotations fig' = annotations fig
    ∧ title fig' = title fig
    ∧ shapes fig `prefix_of` shapes fig'
    ∧ length (shapes fig')
      = (length (shapes fig)
         + length (filter (λ r, (0 < buy_volume r)%Qc) rows)
         + length (filter (λ r, (0 < sell_volume r)%Qc) rows))%nat.
Proof.
  intros rows. eexists. split; [apply add_order_flow_profile_spec|].
  cbn [traces shapes annotations title]. fold rows.
  split; [done|]. split; [done|]. split; [done|].
  split; [by eexists|].
  rewrite !length_app, !length_fmap. lia.
Qed.

(** The share of a positive volume in a maximum above it. *)
Lemma share_bounds (v m : Qc) : 0 < v → v ≤ m → 0 < v / m ∧ v / m ≤ 1.
Proof.
  intros Hv Hvm.
  assert (0 < m) as Hm by by eapply Qclt_le_trans.
  assert (0 < / m) as Hinv by by apply Qcinv_pos.
  unfold Qcdiv. split.
  - by apply Qcmult_pos_pos.
  - rewrite <- (Qcmult_inv_r m) by (intros ->; by apply Qclt_not_eq in Hm).
    apply Qcmult_le_mono_nonneg_r; [by apply Qclt_le_weak|done].
Qed.

Lemma bar_width_bounds (v m profile_scale : Qc) :
  0 < v → v ≤ m → 0 ≤ profile_scale →
  0 ≤ v / m * profile_scale * q 15
  ∧ v / m * profile_scale * q 15 ≤ profile_scale * q 15.
Proof.
  intros Hv Hvm Hscale.
  destruct (share_bounds v m Hv Hvm) as [Hpos Hle].
  assert (0 ≤ q 15) as H15 by by_eval.
  split.
  - apply Qcmult_nonneg_nonneg; [|done].
    apply Qcmult_nonneg_nonneg; [by apply Qclt_le_weak|done].
  - apply Qcmult_le_mono_nonneg_r; [done|].
    rewrite <- (Qcmult_1_l profile_scale) at 2.
    by apply Qcmult_le_mono_nonneg_r.
Qed.

(** Every bar added comes from a row of the table with a positive volume
    in the column of its colour. *)
Lemma order_flow_added_bars
    (fig : figure) (profile_df : option (list profile_row))
    (current_time profile_scale offset : Qc) (fig' : figure) (sh : shape) :
  add_order_flow_profile fig profile_df current_time profile_scale offset
  = Ok fig' →
  sh ∈ drop (length (shapes fig)) (shapes fig') →
  ∃ row rest r,
    profile_df = Some (row :: rest) ∧ r ∈ row :: rest
    ∧ (0 < buy_volume r
       ∧ sh = profile_bar buy_volume (current_time + offset * q 15)
                "rgba(0, 255, 187, 0.7)" (profile_max_vol row rest)
                profile_scale r
       ∨ 0 < sell_volume r
         ∧ sh = profile_bar sell_volume
                  (current_time
                   + (offset * q 15 + (profile_scale + q 2) * q 15))
                  "rgba(255, 17, 0, 0.7)" (profile_max_vol row rest)
                  profile_scale r).
Proof.
  rewrite add_order_flow_profile_spec. intros [= <-].
  cbn [shapes]. rewrite drop_app_length. unfold profile_rows.
  destruct profile_df as [[|row rest]|]; cbn [default from_option id];
    try (intros Hin; by apply elem_of_nil in Hin).
  intros Hin. exists row, rest.
  apply elem_of_app in Hin as [Hin|Hin];
    apply list_elem_of_fmap in Hin as (r & -> & Hin);
    apply list_elem_of_filter in Hin as [Hpos Hin];
    exists r; (split; [done|]); (split; [done|]); [left|right]; done.
Qed.

(** X10.  No bar is wider than the profile.  For a non-negative
    [profile_scale], every rectangle added starts at its left edge and is
    at most [profile_scale] candles of a quarter of an hour wide. *)
Theorem order_flow_bar_widths
    (fig : figure) (profile_df : option (list profile_row))
    (current_time profile_scale offset : Qc) (fig' : figure) :
  0 ≤ profile_scale →
  add_order_flow_profile fig profile_df current_time profile_scale offset
  = Ok fig' →
  ∀ sh, sh ∈ drop (length (shapes fig)) (shapes fig') →
    ∃ x0 x1 y0 y1 color,
      sh = Rect x0 x1 y0 y1 color
      ∧ x0 ≤ x1 ∧ x1 ≤ x0 + profile_scale * q 15.
Proof.
  intros Hscale Hrun sh Hin.
  destruct (order_flow_added_bars _ _ _ _ _ _ _ Hrun Hin)
    as (row & rest & r & _ & Hr & [[Hpos ->]|[Hpos ->]]);
    unfold profile_bar; eexists _, _, _, _, _; (split; [reflexivity|]).
  - destruct (bar_width_bounds (buy_volume r) (profile_max_vol row rest)
                profile_scale Hpos (profile_max_vol_ge_buy _ _ _ Hr) Hscale)
      as [Hlo Hhi].
    split; [|by apply Qcplus_le_mono_l].
    rewrite <- (Qcplus_0_r (current_time + offset * q 15)) at 1.
    by apply Qcplus_le_mono_l.
  - destruct (bar_width_bounds (sell_volume r) (profile_max_vol row rest)
                profile_scale Hpos (profile_max_vol_ge_sell _ _ _ Hr) Hscale)
      as [Hlo Hhi].
    split; [|by apply Qcplus_le_mono_l].
    match goal with |- ?a ≤ _ => rewrite <- (Qcplus_0_r a) at 1 end.
    by apply Qcplus_le_mono_l.
Qed.

Lemma order_flow_bar_widths_witness :
  0 ≤ q 20
  ∧ ∃ fig',
      add_order_flow_profile go_Figure (Some example_profile)
        (q 600) (q 20) (q 5) = Ok fig'
      ∧ ∀ sh, sh ∈ shapes fig' →
          ∃ x0 x1 y0 y1 color,
            sh = Rect x0 x1 y0 y1 color ∧ x0 ≤ x1 ∧ x1 ≤ x0 + q 20 * q 15.
Proof.
  assert (0 ≤ q 20) as Hscale by by_eval.
  split; [exact Hscale|].
  destruct (add_order_flow_profile go_Figure (Some example_profile)
              (q 600) (q 20) (q 5)) as [fig'|e] eqn:Hrun;
    [|vm_compute in Hrun; discriminate].
  exists fig'. split; [reflexivity|].
  exact (order_flow_bar_widths go_Figure (Some example_profile)
           (q 600) (q 20) (q 5) fig' Hscale Hrun).
Defined.

(** X11.  The buy bars and the sell bars do not overlap.  For a
    non-negative [profile_scale], every buy bar ends at least two candles
    (half an hour) before the time at which every sell bar starts. *)
Theorem order_flow_buy_sell_apart
    (fig : figure) (profile_df : option (list profile_row))
    (current_time profile_scale offset : Qc) (fig' : figure)
    (b0 b1 by0 by1 s0 s1 sy0 sy1 : Qc) :
  0 ≤ profile_scale →
  add_order_flow_profile fig profile_df current_time profile_scale offset
  = Ok fig' →
  Rect b0 b1 by0 by1 "rgba(0, 255, 187, 0.7)"
    ∈ drop (length (shapes fig)) (shapes fig') →
  Rect s0 s1 sy0 sy1 "rgba(255, 17, 0, 0.7)"
    ∈ drop (length (shapes fig)) (shapes fig') →
  b1 + q 30 ≤ s0.
Proof.
  intros Hscale Hrun Hbuy Hsell.
  destruct (order_flow_added_bars _ _ _ _ _ _ _ Hrun Hbuy)
    as (row & rest & r & _ & Hr & [[Hpos Heq]|[_ Heq]]);
    [|discriminate Heq].
  destruct (order_flow_added_bars _ _ _ _ _ _ _ Hrun Hsell)
    as (row' & rest' & r' & _ & _ & [[_ Heq']|[_ Heq']]);
    [discriminate Heq'|].
  unfold profile_bar in Heq, Heq'.
  injection Heq as Hb0 Hb1 _ _. injection Heq' as Hs0 _ _ _.
  subst b0 b1 s0.
  destruct (bar_width_bounds (buy_volume r) (profile_max_vol row rest)
              profile_scale Hpos (profile_max_vol_ge_buy _ _ _ Hr) Hscale)
    as [_ Hhi].
  assert (q 2 * q 15 = q 30) as H30 by by_eval.
  replace (current_time + (offset * q 15 + (profile_scale + q 2) * q 15))
    with (current_time + offset * q 15 + profile_scale * q 15 + q 30)
    by (rewrite <- H30; ring).
  apply Qcplus_le_mono_r. by apply Qcplus_le_mono_l.
Qed.

Lemma order_flow_buy_sell_apart_witness :
  0 ≤ q 20
  ∧ ∃ fig' b1 s0,
      add_order_flow_profile go_Figure (Some example_profile)
        (q 600) (q 20) (q 5) = Ok fig'
      ∧ Rect (q 675) b1 (q 101) (q 102) "rgba(0, 255, 187, 0.7)"
          ∈ shapes fig'
      ∧ Rect s0 (q 1230) (q 102) (q 103) "rgba(255, 17, 0, 0.7)"
          ∈ shapes fig'
      ∧ b1 + q 30 ≤ s0.
Proof.
  assert (0 ≤ q 20) as Hscale by by_eval.
  split; [exact Hscale|].
  destruct (add_order_flow_profile go_Figure (Some example_profile)
              (q 600) (q 20) (q 5)) as [fig'|e] eqn:Hrun;
    [|vm_compute in Hrun; discriminate].
  assert (Rect (q 675) (q 975) (q 101) (q 102) "rgba(0, 255, 187, 0.7)"
            ∈ shapes fig') as Hbuy.
  { rewrite add_order_flow_profile_spec in Hrun. injection Hrun as <-.
    by_eval. }
  assert (Rect (q 1005) (q 1230) (q 102) (q 103) "rgba(255, 17, 0, 0.7)"
            ∈ shapes fig') as Hsell.
  { rewrite add_order_flow_profile_spec in Hrun. injection Hrun as <-.
    by_eval. }
  exists fig', (q 975), (q 1005).
  split; [reflexivity|]. split; [exact Hbuy|]. split; [exact Hsell|].
  exact (order_flow_buy_sell_apart go_Figure (Some example_profile)
           (q 600) (q 20) (q 5) fig' _ _ _ _ _ _ _ _ Hscale Hrun Hbuy Hsell).
Defined.

Lemma py_max_cases a b : py_max a b = a ∨ py_max a b = b.
Proof. unfold py_max. destruct (decide (a < b)); auto. Qed.

Lemma series_max_in x xs : series_max x xs ∈ x :: xs.
Proof.
  unfold series_max. revert x.
  induction xs as [|y ys IH]; intros x; simpl; [by left|].
  specialize (IH (py_max x y)).
  apply elem_of_cons in IH as [->|Hin].
  - destruct (py_max_cases x y) as [-> | ->]; [by left|by right; left].
  - by do 2 right.
Qed.

(** The largest volume is the buy or the sell volume of some row. *)
Lemma profile_max_vol_attained row rest :
  ∃ r, r ∈ row :: rest
       ∧ (buy_volume r = profile_max_vol row rest
          ∨ sell_volume r = profile_max_vol row rest).
Proof.
  unfold profile_max_vol.
  destruct (py_max_cases (series_max (buy_volume row) (buy_volume <$> rest))
              (series_max (sell_volume row) (sell_volume <$> rest)))
    as [-> | ->].
  - pose proof (series_max_in (buy_volume row) (buy_volume <$> rest)) as Hin.
    change (buy_volume row :: (buy_volume <$> rest))
      with (buy_volume <$> row :: rest) in Hin.
    apply list_elem_of_fmap in Hin as (r & Heq & Hin). eauto.
  - pose proof (series_max_in (sell_volume row) (sell_volume <$> rest)) as Hin.
    change (sell_volume row :: (sell_volume <$> rest))
      with (sell_volume <$> row :: rest) in Hin.
    apply list_elem_of_fmap in Hin as (r & Heq & Hin). eauto.
Qed.

(** X12.  The profile is normalised to its largest volume.  When some
    volume of the table is positive, a bar of the full width of
    [profile_scale] candles is drawn: the bar of the row that holds the
    largest volume. *)
Theorem order_flow_full_width_bar
    (fig : figure) (row : profile_row) (rest : list profile_row)
    (current_time profile_scale offset : Qc) :
  0 < profile_max_vol row rest →
  ∃ fig' x0 y0 y1 color,
    add_order_flow_profile fig (Some (row :: rest))
      current_time profile_scale offset = Ok fig'
    ∧ Rect x0 (x0 + profile_scale * q 15) y0 y1 color
        ∈ drop (length (shapes fig)) (shapes fig').
Proof.
  intros Hmax.
  assert (profile_max_vol row rest ≠ 0) as Hne
    by (intros Hz; rewrite Hz in Hmax; by apply Qclt_not_eq in Hmax).
  assert (∀ x0, x0 + profile_max_vol row rest / profile_max_vol row rest
                     * profile_scale * q 15
                = x0 + profile_scale * q 15) as Hfull.
  { intros x0. unfold Qcdiv. rewrite Qcmult_inv_r by done.
    by rewrite Qcmult_1_l. }
  destruct (profile_max_vol_attained row rest) as (r & Hin & [Hbuy|Hsell]).
  - eexists _, _, (price_bottom r), (price_top r), _.
    split; [apply add_order_flow_profile_spec|].
    cbn [shapes]. rewrite drop_app_length. apply elem_of_app. left.
    apply list_elem_of_fmap. exists r. split.
    + unfold profile_bar. cbn. by rewrite Hbuy, Hfull.
    + apply list_elem_of_filter. split; [by rewrite Hbuy|done].
  - eexists _, _, (price_bottom r), (price_top r), _.
    split; [apply add_order_flow_profile_spec|].
    cbn [shapes]. rewrite drop_app_length. apply elem_of_app. right.
    apply list_elem_of_fmap. exists r. split.
    + unfold profile_bar. cbn. by rewrite Hsell, Hfull.
    + apply list_elem_of_filter. split; [by rewrite Hsell|done].
Qed.

Lemma order_flow_full_width_bar_witness :
  0 < profile_max_vol (ProfileRow (q 100) (q 101) (q 4) (q 1))
        [ProfileRow (q 101) (q 102) (q 8) (q 2);
         ProfileRow (q 102) (q 103) 0 (q 6)]
  ∧ ∃ fig' x0 y0 y1 color,
      add_order_flow_profile go_Figure (Some example_profile)
        (q 600) (q 20) (q 5) = Ok fig'
      ∧ Rect x0 (x0 + q 20 * q 15) y0 y1 color ∈ shapes fig'.
Proof.
  assert (0 < profile_max_vol (ProfileRow (q 100) (q 101) (q 4) (q 1))
                [ProfileRow (q 101) (q 102) (q 8) (q 2);
                 ProfileRow (q 102) (q 103) 0 (q 6)]) as Hmax by by_eval.
  split; [exact Hmax|].
  exact (order_flow_full_width_bar go_Figure _ _ (q 600) (q 20) (q 5) Hmax).
Defined.

(** ** [add_orderbook_overlay] *)

Section overlay_properties.

Context (fmt2 fmt3 str_num : Qc → string).

Lemma format_stat_ok fmt (d : gmap string stat_value) key text :
  format_stat fmt d key = TextOk text → ∃ n, d !! key = Some (SNum n).
Proof.
  unfold format_stat. destruct (d !! key) as [[n|s]|]; try discriminate.
  eauto.
Qed.

(** A figure is returned for a non-empty dictionary only when the six
    keys are there, the numeric ones with numbers; the figure has one more
    annotation. *)
Lemma add_orderbook_overlay_ok
    (fig fig' : figure) (d : gmap string stat_value) (y_position : string) :
  d ≠ ∅ →
  add_orderbook_overlay fmt2 fmt3 str_num fig (Some d) y_position
  = TextOk fig' →
  (∃ stats_text,
     fig' = add_annotation fig
              (Annotation (q 2 / q 100)
                 (Some (if decide (y_position = "bottom") then q 2 / q 100
                        else q 98 / q 100))
                 (Text stats_text)))
  ∧ (∀ key, key ∈ numeric_stat_keys → ∃ n, d !! key = Some (SNum n))
  ∧ is_Some (d !! "imbalance").
Proof.
  intros Hne. unfold add_orderbook_overlay.
  rewrite bool_decide_eq_false_2 by done.
  unfold overlay_text.
  destruct (format_stat fmt2 d "spread") as [t1| |] eqn:H1; try discriminate.
  destruct (format_stat fmt3 d "spread_pct") as [t2| |] eqn:H2;
    try discriminate.
  destruct (format_stat fmt2 d "bid_volume") as [t3| |] eqn:H3;
    try discriminate.
  destruct (format_stat fmt2 d "ask_volume") as [t4| |] eqn:H4;
    try discriminate.
  destruct (format_stat fmt2 d "volume_ratio") as [t5| |] eqn:H5;
    try discriminate.
  destruct (show_stat str_num d "imbalance") as [t6| |] eqn:H6; try discriminate.
  cbn. intros [= <-]. split; [|split].
  - eexists. do 3 f_equal.
    by destruct (decide (y_position = "bottom"));
      [rewrite bool_decide_eq_true_2|rewrite bool_decide_eq_false_2].
  - intros key Hkey. unfold numeric_stat_keys in Hkey.
    events_cases; subst key; eauto using format_stat_ok.
  - unfold show_stat in H6.
    destruct (d !! "imbalance") as [v|]; [eauto|discriminate].
Qed.

(** X13.  The overlay adds one annotation and nothing else.  When the call
    returns a figure, the traces, shapes and title are those it was given
    and the annotations it was given are kept; for [None] or an empty
    dictionary the figure is returned as it is, otherwise exactly one
    annotation is appended, at [x = 0.02] and at [y = 0.02] when
    [y_position] is ['bottom'], at [y = 0.98] for every other value of
    [y_position]. *)
Theorem orderbook_overlay_annotation
    (fig fig' : figure) (orderbook_stats : option (gmap string stat_value))
    (y_position : string) :
  add_orderbook_overlay fmt2 fmt3 str_num fig orderbook_stats y_position
  = TextOk fig' →
  traces fig' = traces fig ∧ shapes fig' = shapes fig
  ∧ title fig' = title fig
  ∧ (orderbook_stats = None ∨ orderbook_stats = Some ∅ → fig' = fig)
  ∧ (∀ d, orderbook_stats = Some d → d ≠ ∅ →
       ∃ stats_text,
         annotations fig'
         = annotations fig
           ++ [Annotation (q 2 / q 100)
                 (Some (if decide (y_position = "bottom") then q 2 / q 100
                        else q 98 / q 100))
                 (Text stats_text)]).
Proof.
  destruct orderbook_stats as [d|]; [|intros [= <-]; by repeat split].
  destruct (decide (d = ∅)) as [->|Hne].
  { intros [= <-]. repeat split; try done. by intros d' [= <-] Hne. }
  intros Hrun.
  destruct (add_orderbook_overlay_ok _ _ _ _ Hne Hrun) as ([text ->] & _).
  cbn. split; [done|]. split; [done|]. split; [done|].
  split; [intros [?|[= ->]]; done|].
  intros d' _ _. by exists text.
Qed.

(** X14.  The errors of the overlay.  For a non-empty dictionary, a
    [KeyError] names a key that the dictionary lacks, one of the six keys of
    the text; and if one of the six keys is missing, or a numeric key holds
    text, the call does not return a figure. *)
Theorem orderbook_overlay_errors
    (fig : figure) (d : gmap string stat_value) (y_position : string) :
  d ≠ ∅ →
  (∀ key,
     add_orderbook_overlay fmt2 fmt3 str_num fig (Some d) y_position
     = TextKeyError key →
     d !! key = None ∧ key ∈ numeric_stat_keys ++ ["imbalance"])
  ∧ (add_orderbook_overlay fmt2 fmt3 str_num fig (Some d) y_position
     = TextValueError →
     ∃ key s, key ∈ numeric_stat_keys ∧ d !! key = Some (SText s))
  ∧ (∀ key, key ∈ numeric_stat_keys ++ ["imbalance"] → d !! key = None →
     ∀ fig',
       add_orderbook_overlay fmt2 fmt3 str_num fig (Some d) y_position
       ≠ TextOk fig').
Proof.
  intros Hne. split; [|split].
  - unfold add_orderbook_overlay. rewrite bool_decide_eq_false_2 by done.
    unfold overlay_text, format_stat, show_stat, numeric_stat_keys.
    intros key.
    destruct (d !! "spread") as [[?|?]|] eqn:H1; cbn;
      [|discriminate|intros [= <-]; split; [done|set_solver]].
    destruct (d !! "spread_pct") as [[?|?]|] eqn:H2; cbn;
      [|discriminate|intros [= <-]; split; [done|set_solver]].
    destruct (d !! "bid_volume") as [[?|?]|] eqn:H3; cbn;
      [|discriminate|intros [= <-]; split; [done|set_solver]].
    destruct (d !! "ask_volume") as [[?|?]|] eqn:H4; cbn;
      [|discriminate|intros [= <-]; split; [done|set_solver]].
    destruct (d !! "volume_ratio") as [[?|?]|] eqn:H5; cbn;
      [|discriminate|intros [= <-]; split; [done|set_solver]].
    destruct (d !! "imbalance") as [[?|?]|] eqn:H6; cbn;
      [discriminate|discriminate|intros [= <-]; split; [done|set_solver]].
  - unfold add_orderbook_overlay. rewrite bool_decide_eq_false_2 by done.
    unfold overlay_text, format_stat, show_stat, numeric_stat_keys.
    destruct (d !! "spread") as [[?|?]|] eqn:H1; cbn;
      [|intros _; eexists _, _; split; [|exact H1]; set_solver|discriminate].
    destruct (d !! "spread_pct") as [[?|?]|] eqn:H2; cbn;
      [|intros _; eexists _, _; split; [|exact H2]; set_solver|discriminate].
    destruct (d !! "bid_volume") as [[?|?]|] eqn:H3; cbn;
      [|intros _; eexists _, _; split; [|exact H3]; set_solver|discriminate].
    destruct (d !! "ask_volume") as [[?|?]|] eqn:H4; cbn;
      [|intros _; eexists _, _; split; [|exact H4]; set_solver|discriminate].
    destruct (d !! "volume_ratio") as [[?|?]|] eqn:H5; cbn;
      [|intros _; eexists _, _; split; [|exact H5]; set_solver|discriminate].
    destruct (d !! "imbalance") as [[?|?]|]; cbn; discriminate.
  - intros key Hkey Hmissing fig' Hrun.
    destruct (add_orderbook_overlay_ok _ _ _ _ Hne Hrun)
      as (_ & Hnum & Himb).
    apply elem_of_app in Hkey as [Hkey|Hkey].
    + destruct (Hnum key Hkey) as [n Hn]. congruence.
    + apply list_elem_of_singleton in Hkey as ->.
      destruct Himb as [v Hv]. congruence.
Qed.

End overlay_properties.

Lemma orderbook_overlay_annotation_witness :
  ∃ fig',
    add_orderbook_overlay (λ _, "1.00") (λ _, "1.000") (λ _, "1")
      go_Figure (Some example_stats) "middle" = TextOk fig'
    ∧ ∃ stats_text,
        annotations fig'
        = [Annotation (q 2 / q 100) (Some (q 98 / q 100)) (Text stats_text)].
Proof.
  destruct (add_orderbook_overlay (λ _, "1.00") (λ _, "1.000") (λ _, "1")
              go_Figure (Some example_stats) "middle")
    as [fig'| |] eqn:Hrun; [|vm_compute in Hrun; discriminate..].
  exists fig'. split; [reflexivity|].
  destruct (orderbook_overlay_annotation _ _ _ _ _ _ _ Hrun)
    as (_ & _ & _ & _ & Hadd).
  destruct (Hadd example_stats eq_refl) as [text Htext].
  { intros Heq. discriminate (f_equal (λ m, m !! "spread") Heq). }
  exists text. exact Htext.
Defined.

Lemma orderbook_overlay_errors_witness :
  ({["spread" := SNum (q 1)]} : gmap string stat_value) ≠ ∅
  ∧ (add_orderbook_overlay (λ _, "1.00") (λ _, "1.000") (λ _, "1")
       go_Figure (Some {["spread" := SNum (q 1)]}) "bottom"
     = TextKeyError "spread_pct")
  ∧ ∀ fig',
      add_orderbook_overlay (λ _, "1.00") (λ _, "1.000") (λ _, "1")
        go_Figure (Some {["spread" := SNum (q 1)]}) "bottom"
      ≠ TextOk fig'.
Proof.
  assert (({["spread" := SNum (q 1)]} : gmap string stat_value) ≠ ∅) as Hne
    by (intros Heq; discriminate (f_equal (λ m, m !! "spread") Heq)).
  split; [exact Hne|]. split; [reflexivity|].
  destruct (orderbook_overlay_errors (λ _, "1.00") (λ _, "1.000") (λ _, "1")
              go_Figure {["spread" := SNum (q 1)]} "bottom" Hne)
    as (_ & _ & Hmissing).
  apply (Hmissing "spread_pct"); [|reflexivity].
  apply elem_of_app. left. unfold numeric_stat_keys. by right; left.
Defined.

(** ** The lines of the price panels *)

Lemma foldl_add_hline {A} (f : A → hline) (rows : list A) (fig : panel) :
  foldl (λ fig row, add_hline fig (f row)) fig rows
  = Panel (p_traces fig) (p_hlines fig ++ (f <$> rows)) (p_title fig).
Proof.
  revert fig. induction rows as [|row rows IH]; intros fig; simpl.
  - rewrite app_nil_r. by destruct fig.
  - rewrite IH. simpl. by rewrite <- app_assoc.
Qed.

Lemma add_level_lines_spec color prefix fig levels :
  add_level_lines color prefix fig levels
  = Panel (p_traces fig)
      (p_hlines fig ++ (level_line color prefix <$> default [] levels))
      (p_title fig).
Proof.
  unfold add_level_lines.
  destruct levels as [[|row rows]|];
    [cbn; rewrite app_nil_r; by destruct fig| |
     cbn; rewrite app_nil_r; by destruct fig].
  rewrite bool_decide_eq_true_2 by (simpl; lia).
  by rewrite foldl_add_hline.
Qed.

(** The membership test before the subscript keeps it from raising. *)
Lemma add_liquidity_line_spec key color text fig bsl_ssl :
  add_liquidity_line key color text fig bsl_ssl
  = Ok (Panel (p_traces fig)
          (p_hlines fig ++ liquidity_lines key color text bsl_ssl)
          (p_title fig)).
Proof.
  unfold add_liquidity_line, liquidity_lines, liquidity_get.
  destruct bsl_ssl as [d|]; [|rewrite app_nil_r; by destruct fig].
  destruct (d !! key) as [[y|]|] eqn:Hkey.
  - rewrite bool_decide_eq_true_2, bool_decide_eq_true_2; [done|eauto|].
    intros ->. by rewrite lookup_empty in Hkey.
  - destruct (bool_decide (d ≠ ∅) && bool_decide (is_Some (Some None)));
      cbn; rewrite app_nil_r; by destruct fig.
  - rewrite (bool_decide_eq_false_2 (is_Some None)), andb_false_r
      by (by intros [??]).
    rewrite app_nil_r. by destruct fig.
Qed.

Lemma add_all_lines_spec fig support_levels resistance_levels bsl_ssl :
  add_all_lines fig support_levels resistance_levels bsl_ssl
  = Ok (Panel (p_traces fig)
          (p_hlines fig
           ++ panel_lines support_levels resistance_levels bsl_ssl)
          (p_title fig)).
Proof.
  unfold add_all_lines, panel_lines.
  rewrite !add_level_lines_spec, add_liquidity_line_spec. cbn.
  rewrite add_liquidity_line_spec. cbn.
  by rewrite <- !app_assoc.
Qed.

(** X15.  [create_altcoin_ratio_chart] always writes its chart: whatever
    the tables and levels are, no exception is raised (the lookups of
    [bsl_ssl] are guarded), one file named [output_file] is written and
    [output_file] is returned.  The chart has the five traces BTC, ratio,
    SMA 50, EMA 21 and SMA 20 in this order, and its lines are the
    supports, the resistances, then BSL and SSL: one line per level of a
    table that is not [None], labelled with the level's index plus one,
    and a BSL or SSL line only when [bsl_ssl] holds a number under that
    key. *)
Theorem ratio_chart_written
    (btc_df : list btc_row) (ratio_df : list ratio_row)
    (support_levels resistance_levels : option (list (Z * Qc)))
    (bsl_ssl : option (gmap string (option Qc))) (output_file : string) :
  ∃ fig msg,
    create_altcoin_ratio_chart btc_df ratio_df support_levels
      resistance_levels bsl_ssl output_file
    = ([RatioChartWritten output_file fig; ChartPrinted msg], Ok output_file)
    ∧ p_traces fig
      = [btc_candles btc_df; ratio_candles ratio_df; sma50_line ratio_df;
         ema21_line ratio_df; sma20_line ratio_df]
    ∧ p_hlines fig = panel_lines support_levels resistance_levels bsl_ssl
    ∧ length (p_hlines fig)
      = (length (default [] support_levels)
         + length (default [] resistance_levels)
         + length (liquidity_lines "bsl" "green" "BSL" bsl_ssl)
         + length (liquidity_lines "ssl" "red" "SSL" bsl_ssl))%nat.
Proof.
  unfold create_altcoin_ratio_chart, ratio_chart_figure.
  rewrite add_all_lines_spec. cbn.
  eexists _, _. split; [reflexivity|]. cbn.
  split; [done|]. split; [done|].
  unfold panel_lines. rewrite !length_app, !length_fmap. lia.
Qed.

(** The first support is labelled [S1]. *)
Example level_line_first :
  hl_text (level_line "lime" "S" (0%Z, q 10)) = "S1"
  ∧ hl_text (level_line "red" "R" (4%Z, q 12)) = "R5".
Proof. split; by vm_compute. Qed.

(** ** [create_combined_chart] *)

(** The markers of the combined chart are the traces that
    [add_footprint_markers] adds to an empty figure. *)
Lemma combined_footprints_spec fig footprint_df :
  combined_footprints fig footprint_df
  = Panel
      (p_traces fig
       ++ (Markers <$> traces (add_footprint_markers go_Figure footprint_df)))
      (p_hlines fig) (p_title fig).
Proof.
  destruct (add_footprint_markers_spec go_Figure footprint_df)
    as (-> & _). cbn [traces go_Figure app].
  unfold combined_footprints.
  assert (∀ l : list footprint_row,
            bool_decide (0 < length l)%nat
            = if decide (l = []) then false else true) as Hlen.
  { intros [|? ?]; [done|]. rewrite decide_False by done.
    apply bool_decide_eq_true_2. simpl. lia. }
  destruct footprint_df as [rows|];
    [|cbn; rewrite app_nil_r; by destruct fig].
  cbn [default from_option id]. rewrite !Hlen.
  destruct (decide (rows = [])) as [->|Hrows].
  { cbn. rewrite app_nil_r. by destruct fig. }
  destruct (decide (filter (λ r, is_aggressive_buy r) rows = []));
    destruct (decide (filter (λ r, is_aggressive_sell r) rows = []));
    unfold panel_add_trace; cbn; rewrite ?app_nil_r, <- ?app_assoc;
    by destruct fig.
Qed.

Lemma combined_top_panel_spec
    btc_df ratio_df support_levels resistance_levels bsl_ssl footprint_df :
  combined_top_panel btc_df ratio_df support_levels resistance_levels
    bsl_ssl footprint_df
  = Ok (Panel
          ([btc_candles btc_df; ratio_candles ratio_df;
            hover_points ratio_df; sma50_line ratio_df;
            ema21_line ratio_df; sma20_line ratio_df]
           ++ (Markers
               <$> traces (add_footprint_markers go_Figure footprint_df)))
          (panel_lines support_levels resistance_levels bsl_ssl) "").
Proof.
  unfold combined_top_panel. rewrite add_all_lines_spec. cbn.
  by rewrite combined_footprints_spec.
Qed.

(** X16.  The price panel of the combined chart extends the ratio chart.
    Whenever the order-book panel can be drawn, both charts are written for
    the same tables, and the top panel of the combined chart has the lines
    of the ratio chart and its five traces, with the hover points inserted
    after the two candlestick traces and followed by the marker traces that
    [add_footprint_markers] adds for the footprint table. *)
Theorem combined_chart_extends_ratio_chart
    (btc_df : list btc_row) (ratio_df : list ratio_row)
    (orderbook_data : pyval)
    (support_levels resistance_levels : option (list (Z * Qc)))
    (bsl_ssl : option (gmap string (option Qc)))
    (footprint_df : option (list footprint_row))
    (current_time ratio_file combined_file : string) (bottom : figure) :
  combined_orderbook_panel go_Figure orderbook_data = Ok bottom →
  ∃ ratio_fig top msg1 msg2,
    create_altcoin_ratio_chart btc_df ratio_df support_levels
      resistance_levels bsl_ssl ratio_file
    = ([RatioChartWritten ratio_file ratio_fig; ChartPrinted msg1],
       Ok ratio_file)
    ∧ create_combined_chart btc_df ratio_df orderbook_data support_levels
        resistance_levels bsl_ssl footprint_df current_time combined_file
      = ([CombinedChartWritten combined_file top bottom; ChartPrinted msg2],
         Ok combined_file)
    ∧ p_hlines top = p_hlines ratio_fig
    ∧ p_traces top
      = take 2 (p_traces ratio_fig) ++ [hover_points ratio_df]
        ++ drop 2 (p_traces ratio_fig)
        ++ (Markers
            <$> traces (add_footprint_markers go_Figure footprint_df)).
Proof.
  intros Hbottom.
  unfold create_altcoin_ratio_chart, ratio_chart_figure, create_combined_chart.
  rewrite add_all_lines_spec, combined_top_panel_spec, Hbottom. cbn.
  eexists _, _, _, _. split; [reflexivity|]. split; [reflexivity|]. done.
Qed.

Lemma combined_chart_extends_ratio_chart_witness :
  ∃ bottom ratio_fig top msg1 msg2,
    combined_orderbook_panel go_Figure (PyDict example_book) = Ok bottom
    ∧ create_altcoin_ratio_chart example_btc example_ratio
        (Some [(0%Z, q 9)]) None (Some example_liquidity) "ratio.html"
      = ([RatioChartWritten "ratio.html" ratio_fig; ChartPrinted msg1],
         Ok "ratio.html")
    ∧ create_combined_chart example_btc example_ratio (PyDict example_book)
        (Some [(0%Z, q 9)]) None (Some example_liquidity)
        (Some example_footprints) "12:00:00" "combined.html"
      = ([CombinedChartWritten "combined.html" top bottom;
          ChartPrinted msg2], Ok "combined.html")
    ∧ p_hlines top = p_hlines ratio_fig.
Proof.
  destruct (combined_orderbook_panel go_Figure (PyDict example_book))
    as [bottom|e] eqn:Hbottom; [|vm_compute in Hbottom; discriminate].
  destruct (combined_chart_extends_ratio_chart example_btc example_ratio
              (PyDict example_book) (Some [(0%Z, q 9)]) None
              (Some example_liquidity) (Some example_footprints)
              "12:00:00" "ratio.html" "combined.html" bottom Hbottom)
    as (ratio_fig & top & msg1 & msg2 & Hratio & Hcombined & Hlines & Htr).
  exists bottom, ratio_fig, top, msg1, msg2.
  split; [reflexivity|]. split; [exact Hratio|]. split; [exact Hcombined|].
  exact Hlines.
Defined.

(** The ways the order-book panel can go, for the order books of
    [well_typed]. *)
Lemma combined_panel_outcomes (fig : figure) (orderbook_data : pyval) :
  well_typed orderbook_data = true →
  (truthy orderbook_data = false
   ∧ combined_orderbook_panel fig orderbook_data = Ok fig)
  ∨ (truthy orderbook_data = true
     ∧ is_dict orderbook_data = false
     ∧ combined_orderbook_panel fig orderbook_data = Raise TypeError)
  ∨ (truthy orderbook_data = true
     ∧ ∃ d key,
         orderbook_data = PyDict d
         ∧ first_missing_key d = Some key
         ∧ combined_orderbook_panel fig orderbook_data
           = Raise (KeyError key))
  ∨ (truthy orderbook_data = true
     ∧ ∃ d bottom,
         orderbook_data = PyDict d
         ∧ first_missing_key d = None
         ∧ combined_orderbook_panel fig orderbook_data = Ok bottom
         ∧ length (traces bottom) = (length (traces fig) + 2)%nat).
Proof.
  intros Htyped. unfold combined_orderbook_panel.
  destruct (truthy orderbook_data) eqn:Htruthy; [right|left; by split].
  destruct orderbook_data as [| | | | |d];
    try (left; split; [done|]; split; reflexivity).
  right.
  unfold well_typed, holds_levels, holds_text in Htyped.
  unfold subscript.
  destruct (d !! "bids") as [[?|bids]|] eqn:Hbids; [by cbn in Htyped| |].
  2:{ left. split; [done|]. exists d, "bids".
      unfold first_missing_key. by rewrite Hbids. }
  destruct (d !! "asks") as [[?|asks]|] eqn:Hasks; [by cbn in Htyped| |].
  2:{ left. split; [done|]. exists d, "asks".
      unfold first_missing_key. by rewrite Hbids, Hasks. }
  destruct (add_depth_traces_shapes fig bids asks)
    as (fig' & Hfig & Htraces & _).
  destruct (d !! "symbol") as [[sym|?]|] eqn:Hsym; [|by cbn in Htyped|].
  - right. split; [done|]. eexists d, _.
    unfold first_missing_key. rewrite Hbids, Hasks, Hsym.
    split; [done|]. split; [done|].
    cbn. rewrite Hfig, book_statistics_ok.
    split; [reflexivity|]. cbn. rewrite Htraces, length_app. done.
  - left. split; [done|]. exists d, "symbol".
    unfold first_missing_key. rewrite Hbids, Hasks, Hsym.
    split; [done|]. split; [done|].
    cbn. rewrite Hfig, book_statistics_ok. reflexivity.
Qed.

(** X17.  The failures of the combined chart, for the order books of
    [well_typed].  The call ends with an exception exactly when
    [orderbook_data] is truthy and either is no dictionary (a [TypeError])
    or is a dictionary that lacks a key (the [KeyError] of the first
    missing key, in the order [bids], [asks], [symbol]); then nothing has
    been written or printed.  In every other case one file named
    [output_file] is written and returned: for a dictionary with the three
    keys its bottom panel is the order-book panel, which holds two traces,
    and for a falsy [orderbook_data] the bottom panel is empty. *)
Theorem combined_chart_outcomes
    (btc_df : list btc_row) (ratio_df : list ratio_row)
    (orderbook_data : pyval)
    (support_levels resistance_levels : option (list (Z * Qc)))
    (bsl_ssl : option (gmap string (option Qc)))
    (footprint_df : option (list footprint_row))
    (current_time output_file : string) :
  well_typed orderbook_data = true →
  let run :=
    create_combined_chart btc_df ratio_df orderbook_data support_levels
      resistance_levels bsl_ssl footprint_df current_time output_file in
  (∀ e, run.2 = Raise e
        ↔ truthy orderbook_data = true
          ∧ ((is_dict orderbook_data = false ∧ e = TypeError)
             ∨ (∃ d key,
                  orderbook_data = PyDict d
                  ∧ first_missing_key d = Some key
                  ∧ e = KeyError key)))
  ∧ (∀ e, run.2 = Raise e → run.1 = [])
  ∧ ((∀ e, run.2 ≠ Raise e) →
     ∃ top bottom msg,
       run = ([CombinedChartWritten output_file top bottom;
               ChartPrinted msg], Ok output_file)
       ∧ combined_orderbook_panel go_Figure orderbook_data = Ok bottom)
  ∧ (∀ d, orderbook_data = PyDict d → d ≠ ∅ → first_missing_key d = None →
     ∃ top bottom msg,
       run = ([CombinedChartWritten output_file top bottom;
               ChartPrinted msg], Ok output_file)
       ∧ length (traces bottom) = 2%nat)
  ∧ (truthy orderbook_data = false →
     ∃ top msg,
       run = ([CombinedChartWritten output_file top go_Figure;
               ChartPrinted msg], Ok output_file)).
Proof.
  intros Htyped run. subst run. unfold create_combined_chart.
  rewrite combined_top_panel_spec. cbn.
  destruct (combined_panel_outcomes go_Figure orderbook_data Htyped)
    as [[Hfalsy Hpanel]
       |[(Htruthy & Hnodict & Hpanel)
        |[(Htruthy & d & key & -> & Hkey & Hpanel)
         |(Htruthy & d & bottom & -> & Hkey & Hpanel & Hlen)]]].
  - rewrite Hpanel. cbn.
    split.
    { intros e. split; [discriminate|]. intros [Htruthy _]. congruence. }
    split; [discriminate|].
    split; [intros _; by eexists _, _, _|].
    split; [|intros _; by eexists _, _].
    intros d -> Hne _. rewrite (truthy_dict _ Hne) in Hfalsy. discriminate.
  - rewrite Hpanel. cbn.
    split.
    { intros e. split.
      - intros [= <-]. split; [done|]. by left.
      - intros [_ [[_ ->]|(d & key & -> & _)]]; [done|discriminate]. }
    split; [done|].
    split; [intros Hno; by destruct (Hno TypeError)|].
    split; [intros d ->; discriminate|]. congruence.
  - rewrite Hpanel. cbn.
    split.
    { intros e. split.
      - intros [= <-]. split; [done|]. right. by exists d, key.
      - intros [_ [[Hnodict _]|(d' & key' & [= <-] & Hkey' & ->)]];
          [discriminate|]. congruence. }
    split; [done|].
    split; [intros Hno; by destruct (Hno (KeyError key))|].
    split; [intros d' [= <-] _ Hnone; congruence|].
    cbn in Htruthy. congruence.
  - rewrite Hpanel. cbn.
    split.
    { intros e. split; [discriminate|].
      intros [_ [[Hnodict _]|(d' & key' & [= <-] & Hkey' & _)]];
        [discriminate|congruence]. }
    split; [discriminate|].
    split; [intros _; by eexists _, _, _|].
    split; [intros d' _ _ _; by eexists _, _, _|].
    cbn in Htruthy. congruence.
Qed.

(** ** [create_sr_table_text] *)

Lemma string_app_assoc (s1 s2 s3 : string) :
  (s1 +:+ s2) +:+ s3 = s1 +:+ (s2 +:+ s3).
Proof.
  induction s1 as [|c s1 IH]; [done|].
  change (String c ((s1 +:+ s2) +:+ s3) = String c (s1 +:+ s2 +:+ s3)).
  by rewrite IH.
Qed.

Lemma string_app_nil_r (s : string) : s +:+ "" = s.
Proof.
  induction s as [|c s IH]; [done|].
  change (String c (s +:+ "") = String c s). by rewrite IH.
Qed.

Section sr_table_properties.

Context (fmt_price : Qc → string).

(** The loop lists every row it is given, after the text it starts
    from. *)
(** A block of the table is appended to the text before it, whatever
    that text is; it holds the line of every row, and is [None found] for a
    table that is [None] or empty. *)
Lemma foldl_level_text prefix rows :
  ∃ block,
    (∀ text,
       foldl (λ text row, text +:+ level_text fmt_price prefix row) text rows
       = text +:+ block)
    ∧ (∀ row, row ∈ rows →
         ∃ before after,
           block = before +:+ level_text fmt_price prefix row +:+ after).
Proof.
  induction rows as [|row' rows (block & Hblock & Hrows)].
  - exists "". split; [intros text; simpl; by rewrite string_app_nil_r|].
    intros row Hin. by apply elem_of_nil in Hin.
  - exists (level_text fmt_price prefix row' +:+ block). split.
    + intros text. simpl. by rewrite Hblock, string_app_assoc.
    + intros row Hin. apply elem_of_cons in Hin as [->|Hin].
      * by exists "", block.
      * destruct (Hrows row Hin) as (before & after & ->).
        exists (level_text fmt_price prefix row' +:+ before), after.
        by rewrite string_app_assoc.
Qed.

Lemma add_levels_text_block prefix levels :
  ∃ block,
    (∀ text, add_levels_text fmt_price prefix text levels = text +:+ block)
    ∧ (∀ rows row, levels = Some rows → row ∈ rows →
         ∃ before after,
           block = before +:+ level_text fmt_price prefix row +:+ after)
    ∧ (levels = None ∨ levels = Some [] →
       block = newline +:+ "    None found").
Proof.
  unfold add_levels_text. destruct levels as [[|row rows]|].
  - exists (newline +:+ "    None found"). split; [done|]. split; [|done].
    intros rows row [= <-] Hin. by apply elem_of_nil in Hin.
  - destruct (foldl_level_text prefix (row :: rows))
      as (block & Hblock & Hrows).
    exists block. split; [done|]. split.
    + intros rows' row' [= <-]. apply Hrows.
    + intros [?|?]; discriminate.
  - exists (newline +:+ "    None found"). split; [done|]. split; [|done].
    intros rows row ?. discriminate.
Qed.

(** X18.  The table lists every level under its heading.  For every row
    of the resistance table, the text holds the line [R<idx+1>: $<price>]
    after the heading [RESISTANCES:] and before the heading [SUPPORTS:];
    for every row of the support table it holds the line
    [S<idx+1>: $<price>] after the heading [SUPPORTS:].  A table that is
    [None] or empty is reported as [None found] under its heading. *)
Theorem sr_table_lists_levels
    (support_levels resistance_levels : option (list (Z * Qc))) :
  let text :=
    create_sr_table_text fmt_price support_levels resistance_levels in
  (∀ rows row, resistance_levels = Some rows → row ∈ rows →
     occurs_before "  RESISTANCES:" (level_text fmt_price "R" row) text
     ∧ occurs_before (level_text fmt_price "R" row) "  SUPPORTS:" text)
  ∧ (∀ rows row, support_levels = Some rows → row ∈ rows →
       occurs_before "  SUPPORTS:" (level_text fmt_price "S" row) text)
  ∧ (resistance_levels = None ∨ resistance_levels = Some [] →
     occurs_in ("  RESISTANCES:" +:+ newline +:+ "    None found") text)
  ∧ (support_levels = None ∨ support_levels = Some [] →
     occurs_in ("  SUPPORTS:" +:+ newline +:+ "    None found") text).
Proof.
  intros text. subst text. unfold create_sr_table_text.
  destruct (add_levels_text_block "R" resistance_levels)
    as (rblock & HR & HRrows & HRnone).
  destruct (add_levels_text_block "S" support_levels)
    as (sblock & HS & HSrows & HSnone).
  rewrite HR, HS.
  set (rule := py_repeat "=" 50).
  split; [|split; [|split]].
  - intros rows row Hrows Hin.
    destruct (HRrows rows row Hrows Hin) as (before & after & ->).
    split.
    + exists (newline +:+ rule +:+ newline +:+ "  SUPPORT & RESISTANCE LEVELS"
              +:+ newline +:+ rule +:+ newline +:+ newline),
        before,
        (after +:+ newline +:+ newline +:+ "  SUPPORTS:" +:+ sblock
         +:+ newline +:+ rule).
      by rewrite ?string_app_assoc.
    + exists (newline +:+ rule +:+ newline +:+ "  SUPPORT & RESISTANCE LEVELS"
              +:+ newline +:+ rule +:+ newline +:+ newline
              +:+ "  RESISTANCES:" +:+ before),
        (after +:+ newline +:+ newline),
        (sblock +:+ newline +:+ rule).
      by rewrite ?string_app_assoc.
  - intros rows row Hrows Hin.
    destruct (HSrows rows row Hrows Hin) as (before & after & ->).
    exists (newline +:+ rule +:+ newline +:+ "  SUPPORT & RESISTANCE LEVELS"
            +:+ newline +:+ rule +:+ newline +:+ newline
            +:+ "  RESISTANCES:" +:+ rblock +:+ newline +:+ newline),
      before, (after +:+ newline +:+ rule).
    by rewrite ?string_app_assoc.
  - intros Hnone. rewrite (HRnone Hnone).
    exists (newline +:+ rule +:+ newline +:+ "  SUPPORT & RESISTANCE LEVELS"
            +:+ newline +:+ rule +:+ newline +:+ newline),
      (newline +:+ newline +:+ "  SUPPORTS:" +:+ sblock +:+ newline +:+ rule).
    by rewrite ?string_app_assoc.
  - intros Hnone. rewrite (HSnone Hnone).
    exists (newline +:+ rule +:+ newline +:+ "  SUPPORT & RESISTANCE LEVELS"
            +:+ newline +:+ rule +:+ newline +:+ newline
            +:+ "  RESISTANCES:" +:+ rblock +:+ newline +:+ newline),
      (newline +:+ rule).
    by rewrite ?string_app_assoc.
Qed.

End sr_table_properties.

Lemma sr_table_lists_levels_witness :
  (0%Z, q 12) ∈ [(0%Z, q 12); (1%Z, q 13)]
  ∧ occurs_before "  RESISTANCES:"
      (level_text (λ _, "12.00") "R" (0%Z, q 12))
      (create_sr_table_text (λ _, "12.00") None
         (Some [(0%Z, q 12); (1%Z, q 13)]))
  ∧ occurs_in ("  SUPPORTS:" +:+ newline +:+ "    None found")
      (create_sr_table_text (λ _, "12.00") None
         (Some [(0%Z, q 12); (1%Z, q 13)])).
Proof.
  assert ((0%Z, q 12) ∈ [(0%Z, q 12); (1%Z, q 13)]) as Hin by (by left).
  split; [exact Hin|].
  destruct (sr_table_lists_levels (λ _, "12.00") None
              (Some [(0%Z, q 12); (1%Z, q 13)]))
    as (Hres & _ & _ & Hsup).
  split.
  - exact (proj1 (Hres _ _ eq_refl Hin)).
  - apply Hsup. left. reflexivity.
Defined.

Lemma combined_chart_outcomes_witness :
  well_typed (PyDict bids_only_dict) = true
  ∧ first_missing_key bids_only_dict = Some "asks"
  ∧ create_combined_chart example_btc example_ratio
      (PyDict bids_only_dict)
      None None (Some example_liquidity) (Some example_footprints)
      "12:00:00" "combined.html"
    = ([], Raise (KeyError "asks")).
Proof.
  assert (well_typed (PyDict bids_only_dict) = true) as Htyped
    by reflexivity.
  assert (first_missing_key bids_only_dict = Some "asks") as Hkey
    by reflexivity.
  split; [exact Htyped|]. split; [exact Hkey|].
  destruct (combined_chart_outcomes example_btc example_ratio
              (PyDict bids_only_dict)
              None None (Some example_liquidity) (Some example_footprints)
              "12:00:00" "combined.html" Htyped) as (Hraise & Hnothing & _).
  assert ((create_combined_chart example_btc example_ratio
             (PyDict bids_only_dict)
             None None (Some example_liquidity) (Some example_footprints)
             "12:00:00" "combined.html").2 = Raise (KeyError "asks"))
    as Hrun.
  { apply Hraise. split; [reflexivity|]. right.
    exists bids_only_dict, "asks". by repeat split. }
  specialize (Hnothing _ Hrun).
  destruct (create_combined_chart example_btc example_ratio
              (PyDict bids_only_dict)
              None None (Some example_liquidity) (Some example_footprints)
              "12:00:00" "combined.html") as [events r].
  simpl in *. by subst.
Defined.
